(** * A shallow embedding of the orbit-backend website generator (src/server.js)

    Requests and replies are modelled as sequences of 8-bit code units
    ([String.string]): the embedding covers every request and reply whose
    characters lie in Latin-1 (U+0000 .. U+00FF).  The values [JSON.parse]
    reads from the reply's fenced block, and the files written from them,
    are sequences of UTF-16 code units ([list N]): a [\u] escape of the
    block may denote any code unit.  Built-ins that are not code
    of this repository (JSON.stringify, the messages of engine errors, the
    operating system, the shell for commands other than [mkdir]) are Section
    variables, so every theorem holds for all their behaviours. *)

From Stdlib Require Import ZArith List Bool Lia.
From Stdlib Require Import Strings.String Strings.Ascii.
From Stdlib Require Import Numbers.DecimalString.
Import ListNotations.
Open Scope string_scope.

(** ** Characters and string helpers *)

Definition code (c : ascii) : nat := nat_of_ascii c.
Definition chr (n : nat) : string := String (ascii_of_nat n) EmptyString.

(** The double quote and the newline, written as code units. *)
Definition q : string := chr 34.
Definition nl : string := chr 10.

Definition is_lower_alnum (c : ascii) : bool :=
  let n := code c in
  (Nat.leb 97 n && Nat.leb n 122) || (Nat.leb 48 n && Nat.leb n 57).

(** [String.prototype.toLowerCase] on one Latin-1 code unit: A-Z and
    U+00C0..U+00DE except U+00D7 map to the unit 32 above; every other unit
    of the range is its own lower case. *)
Definition lower_char (c : ascii) : ascii :=
  let n := code c in
  if (Nat.leb 65 n && Nat.leb n 90)
     || (Nat.leb 192 n && Nat.leb n 222 && negb (Nat.eqb n 215))
  then ascii_of_nat (n + 32)%nat else c.

Fixpoint toLowerCase (s : string) : string :=
  match s with
  | EmptyString => EmptyString
  | String c s' => String (lower_char c) (toLowerCase s')
  end.

(** [s.replace(/[^a-z0-9]+/g, '-')]: every maximal run of code units outside
    [a-z0-9] becomes one ['-']; [in_run] records that the previous unit was
    part of such a run. *)
Fixpoint replace_runs (in_run : bool) (s : string) : string :=
  match s with
  | EmptyString => EmptyString
  | String c s' =>
      if is_lower_alnum c then String c (replace_runs false s')
      else if in_run then replace_runs true s'
      else String "-" (replace_runs true s')
  end.

Fixpoint strip_leading_dashes (s : string) : string :=
  match s with
  | String "-" s' => strip_leading_dashes s'
  | _ => s
  end.

(** A dash is dropped exactly when everything after it is dropped. *)
Fixpoint strip_trailing_dashes (s : string) : string :=
  match s with
  | EmptyString => EmptyString
  | String c s' =>
      let r := strip_trailing_dashes s' in
      if Ascii.eqb c "-" && String.eqb r EmptyString then EmptyString else String c r
  end.

(** [s.replace(/^-*|-*$/g, '')]: the global scan matches the leading run of
    dashes at index 0 and the trailing run that reaches the end; any other
    position yields at most an empty match, replaced by the empty string.  So
    the result is [s] without its leading and its trailing dashes. *)
Definition trim_dashes (s : string) : string :=
  strip_trailing_dashes (strip_leading_dashes s).

(** [const folderName = userProblem.toLowerCase().replace(/[^a-z0-9]+/g, '-')
      .replace(/^-*|-*$/g, '') || 'generated-website';] *)
Definition folderName (userProblem : string) : string :=
  let t := trim_dashes (replace_runs false (toLowerCase userProblem)) in
  if String.eqb t "" then "generated-website" else t.

Definition projectPath (userProblem : string) : string :=
  "./generated_websites/" ++ folderName userProblem.

(** The shape of a slug, as boolean tests: only [a-z0-9] and ['-'], no two
    adjacent dashes, no dash at either end. *)
Definition slug_char (c : ascii) : bool := is_lower_alnum c || Ascii.eqb c "-".

Fixpoint slug_chars (s : string) : bool :=
  match s with
  | EmptyString => true
  | String c s' => slug_char c && slug_chars s'
  end.

Definition starts_dash (s : string) : bool :=
  match s with
  | String c _ => Ascii.eqb c "-"
  | EmptyString => false
  end.

Fixpoint ends_dash (s : string) : bool :=
  match s with
  | EmptyString => false
  | String c EmptyString => Ascii.eqb c "-"
  | String _ s' => ends_dash s'
  end.

Fixpoint no_double_dash (s : string) : bool :=
  match s with
  | EmptyString => true
  | String c s' => negb (Ascii.eqb c "-" && starts_dash s') && no_double_dash s'
  end.

Definition is_ascii_alnum (c : ascii) : bool :=
  let n := code c in
  (Nat.leb 97 n && Nat.leb n 122) || (Nat.leb 65 n && Nat.leb n 90)
  || (Nat.leb 48 n && Nat.leb n 57).

Fixpoint has_alnum (s : string) : bool :=
  match s with
  | EmptyString => false
  | String c s' => is_ascii_alnum c || has_alnum s'
  end.


(** ** Locating the fenced block: [rawContent.match(/```json\n([\s\S]*?)\n```/)] *)

Fixpoint drop (n : nat) (s : string) : string :=
  match n, s with
  | O, _ => s
  | S n', String _ s' => drop n' s'
  | S _, EmptyString => EmptyString
  end.

Definition open_marker : string := "```json" ++ nl.
Definition close_marker : string := nl ++ "```".

(** The lazy group [([\s\S]*?)]: the shortest prefix of [s] that is followed
    by the closing marker. *)
Fixpoint find_close (s : string) : option string :=
  if prefix close_marker s then Some EmptyString
  else match s with
       | EmptyString => None
       | String c s' => option_map (String c) (find_close s')
       end.

(** The leftmost index at which the whole pattern matches; the result is the
    captured group [jsonMatch[1]]. *)
Fixpoint find_block (s : string) : option string :=
  match (if prefix open_marker s then find_close (drop 8 s) else None) with
  | Some content => Some content
  | None =>
      match s with
      | EmptyString => None
      | String _ s' => find_block s'
      end
  end.

(** [String.prototype.substring(0, n)] *)
Definition substring0 (n : nat) (s : string) : string := substring 0 n s.

(** ** JSON values *)

(** The reply body as [response.json()] returns it, plus [undefined] for a
    missing property.  A number keeps its source lexeme.  Reply bodies lie in
    the Latin-1 domain of the model: their strings are [string]s. *)
#[local] Set Warnings "-register-all".

Inductive jsval : Type :=
| JUndef
| JNull
| JBool (b : bool)
| JNum (lexeme : string)
| JStr (s : string)
| JArr (elems : list jsval)
| JObj (fields : list (string * jsval)).

(** A UTF-16 code unit is an [N] below 65536; [units] reads a Latin-1 string
    as its code units. *)
Fixpoint units (s : string) : list N :=
  match s with
  | EmptyString => []
  | String c s' => N_of_ascii c :: units s'
  end.

Coercion units : string >-> list.

(** So that [Some "text"] is read at the type the context expects. *)
Arguments Some {A} & _.

(** What [JSON.parse] returns for the fenced block.  The block is a piece of
    the reply, so its text is Latin-1, but a [\u] escape denotes any code
    unit: the strings and keys of the result are lists of UTF-16 code units
    (a lone surrogate included). *)
Inductive jvalue : Type :=
| VUndef
| VNull
| VBool (b : bool)
| VNum (lexeme : string)
| VStr (u : list N)
| VArr (elems : list jvalue)
| VObj (fields : list (list N * jvalue)).

(** A reply value as a value of the second kind (the identity in JavaScript). *)
Fixpoint of_data (v : jsval) : jvalue :=
  match v with
  | JUndef => VUndef
  | JNull => VNull
  | JBool b => VBool b
  | JNum lex => VNum lex
  | JStr s => VStr (units s)
  | JArr l => VArr (map of_data l)
  | JObj fields => VObj (map (fun '(k, x) => (units k, of_data x)) fields)
  end.

Coercion of_data : jsval >-> jvalue.

(** ** [JSON.parse] *)

Definition dq_char : ascii := ascii_of_nat 34.
Definition bs_char : ascii := ascii_of_nat 92.

Definition is_ws (c : ascii) : bool :=
  let n := code c in Nat.eqb n 32 || Nat.eqb n 9 || Nat.eqb n 10 || Nat.eqb n 13.

Fixpoint skip_ws (s : string) : string :=
  match s with
  | String c s' => if is_ws c then skip_ws s' else s
  | EmptyString => EmptyString
  end.

Definition is_digit (c : ascii) : bool :=
  let n := code c in Nat.leb 48 n && Nat.leb n 57.

Fixpoint span_digits (s : string) : string * string :=
  match s with
  | String c s' =>
      if is_digit c then let (ds, r) := span_digits s' in (String c ds, r)
      else (EmptyString, s)
  | EmptyString => (EmptyString, EmptyString)
  end.

(** The JSON number grammar: an optional minus, then [0] or a non-zero digit
    followed by digits, then an optional fraction (a dot and at least one
    digit), then an optional exponent ([e] or [E], an optional sign, at least
    one digit); returns the lexeme and the rest of the input. *)
Definition p_number (s : string) : option (string * string) :=
  let '(sign, s1) := match s with
                     | String "-" r => ("-", r)
                     | _ => (EmptyString, s)
                     end in
  let int_part :=
    match s1 with
    | String "0" r => Some ("0", r)
    | String d r =>
        if is_digit d then let (ds, r') := span_digits r in Some (String d ds, r')
        else None
    | EmptyString => None
    end in
  match int_part with
  | None => None
  | Some (ip, s2) =>
      let frac :=
        match s2 with
        | String "." r =>
            let (ds, r') := span_digits r in
            if String.eqb ds EmptyString then None else Some ("." ++ ds, r')
        | _ => Some (EmptyString, s2)
        end in
      match frac with
      | None => None
      | Some (fp, s3) =>
          let exp :=
            match s3 with
            | String e r =>
                if Ascii.eqb e "e" || Ascii.eqb e "E" then
                  let '(es, r1) := match r with
                                   | String "+" r1 => ("+", r1)
                                   | String "-" r1 => ("-", r1)
                                   | _ => (EmptyString, r)
                                   end in
                  let (ds, r2) := span_digits r1 in
                  if String.eqb ds EmptyString then None
                  else Some (String e (es ++ ds), r2)
                else Some (EmptyString, s3)
            | EmptyString => Some (EmptyString, s3)
            end in
          match exp with
          | None => None
          | Some (xp, s4) => Some (sign ++ ip ++ fp ++ xp, s4)
          end
      end
  end.

Definition hex_val (c : ascii) : option nat :=
  let n := code c in
  if Nat.leb 48 n && Nat.leb n 57 then Some (n - 48)
  else if Nat.leb 97 n && Nat.leb n 102 then Some (n - 87)
  else if Nat.leb 65 n && Nat.leb n 70 then Some (n - 55)
  else None.
Definition cons_unit (u : N) (r : option (list N * string)) : option (list N * string) :=
  match r with
  | Some (t, rest) => Some (u :: t, rest)
  | None => None
  end.

(** The body of a string literal, after its opening quote; returns the
    decoded code units and the input after the closing quote.  A [\u] escape
    denotes the code unit its four hexadecimal digits name. *)
Fixpoint p_string (s : string) : option (list N * string) :=
  match s with
  | EmptyString => None
  | String c s' =>
      if Ascii.eqb c dq_char then Some ([], s')
      else if Ascii.eqb c bs_char then
        match s' with
        | EmptyString => None
        | String e s'' =>
            let n := code e in
            if Nat.eqb n 34 then cons_unit 34%N (p_string s'')
            else if Nat.eqb n 92 then cons_unit 92%N (p_string s'')
            else if Nat.eqb n 47 then cons_unit 47%N (p_string s'')
            else if Nat.eqb n 98 then cons_unit 8%N (p_string s'')
            else if Nat.eqb n 102 then cons_unit 12%N (p_string s'')
            else if Nat.eqb n 110 then cons_unit 10%N (p_string s'')
            else if Nat.eqb n 114 then cons_unit 13%N (p_string s'')
            else if Nat.eqb n 116 then cons_unit 9%N (p_string s'')
            else if Nat.eqb n 117 then
              match s'' with
              | String h1 (String h2 (String h3 (String h4 s3))) =>
                  match hex_val h1, hex_val h2, hex_val h3, hex_val h4 with
                  | Some a, Some b, Some c', Some d =>
                      cons_unit (N.of_nat (a * 4096 + b * 256 + c' * 16 + d)) (p_string s3)
                  | _, _, _, _ => None
                  end
              | _ => None
              end
            else None
        end
      else if Nat.ltb (code c) 32 then None
      else cons_unit (N_of_ascii c) (p_string s')
  end.

(** Values, object members and array elements.  [n] is fuel: a nested
    call consumes at least one character first, except the call of
    [p_value] at the head of [p_elems], which follows an opening ["["]
    whose closing ["]"] is still ahead; so the fuel [S (length text)] given
    by [JSON_parse] is never exhausted. *)
Fixpoint p_value (n : nat) (s : string) {struct n} : option (jvalue * string) :=
  match n with
  | O => None
  | S n' =>
      match skip_ws s with
      | EmptyString => None
      | String c r =>
          if Ascii.eqb c "{" then
            match skip_ws r with
            | String "}" r' => Some (VObj [], r')
            | r' => p_members n' r' []
            end
          else if Ascii.eqb c "[" then
            match skip_ws r with
            | String "]" r' => Some (VArr [], r')
            | r' => p_elems n' r' []
            end
          else if Ascii.eqb c dq_char then
            match p_string r with
            | Some (t, r') => Some (VStr t, r')
            | None => None
            end
          else if prefix "true" (String c r) then Some (VBool true, drop 4 (String c r))
          else if prefix "false" (String c r) then Some (VBool false, drop 5 (String c r))
          else if prefix "null" (String c r) then Some (VNull, drop 4 (String c r))
          else match p_number (String c r) with
               | Some (lex, r') => Some (VNum lex, r')
               | None => None
               end
      end
  end
with p_members (n : nat) (s : string) (acc : list (list N * jvalue)) {struct n}
  : option (jvalue * string) :=
  match n with
  | O => None
  | S n' =>
      match s with
      | String c r =>
          if Ascii.eqb c dq_char then
            match p_string r with
            | Some (k, r1) =>
                match skip_ws r1 with
                | String ":" r2 =>
                    match p_value n' r2 with
                    | Some (v, r3) =>
                        match skip_ws r3 with
                        | String "," r4 => p_members n' (skip_ws r4) (acc ++ [(k, v)])
                        | String "}" r4 => Some (VObj (acc ++ [(k, v)]), r4)
                        | _ => None
                        end
                    | None => None
                    end
                | _ => None
                end
            | None => None
            end
          else None
      | EmptyString => None
      end
  end
with p_elems (n : nat) (s : string) (acc : list jvalue) {struct n}
  : option (jvalue * string) :=
  match n with
  | O => None
  | S n' =>
      match p_value n' s with
      | Some (v, r) =>
          match skip_ws r with
          | String "," r' => p_elems n' r' (acc ++ [v])
          | String "]" r' => Some (VArr (acc ++ [v]), r')
          | _ => None
          end
      | None => None
      end
  end.

(** [JSON.parse(text)]: [None] when it throws a SyntaxError. *)
Definition JSON_parse (text : string) : option jvalue :=
  match p_value (S (length text)) text with
  | Some (v, rest) => if String.eqb (skip_ws rest) EmptyString then Some v else None
  | None => None
  end.

(** ** Property access and truthiness *)

(** Decimal rendering of a natural number. *)
Definition dec (n : nat) : string := NilEmpty.string_of_uint (Nat.to_uint n).

Fixpoint all_digits (s : string) : bool :=
  match s with
  | EmptyString => true
  | String c s' => is_digit c && all_digits s'
  end.

(** A canonical array index: ["0"] or a decimal numeral without leading zero. *)
Definition index_of_key (k : string) : option nat :=
  match k with
  | EmptyString => None
  | String "0" EmptyString => Some 0
  | String c _ =>
      if all_digits k && negb (Ascii.eqb c "0") then
        match NilEmpty.uint_of_string k with
        | Some u => Some (Nat.of_uint u)
        | None => None
        end
      else None
  end.

(** The value of a duplicated key is the last one, as [JSON.parse] does. *)
Definition obj_get (fields : list (string * jsval)) (k : string) : option jsval :=
  fold_left (fun acc kv => if String.eqb k (fst kv) then Some (snd kv) else acc)
            fields None.

(** [v[k]] / [v.k] on a reply value; [None] is the TypeError thrown on
    [null] and [undefined].  The keys the program reads ([choices], [0],
    [message], [content]) name no method of any prototype, so only own data
    properties matter. *)
Definition get (v : jsval) (k : string) : option jsval :=
  match v with
  | JUndef | JNull => None
  | JBool _ | JNum _ => Some JUndef
  | JObj fields => Some (match obj_get fields k with Some x => x | None => JUndef end)
  | JArr l =>
      if String.eqb k "length" then Some (JNum (dec (List.length l)))
      else match index_of_key k with
           | Some i => Some (match nth_error l i with Some x => x | None => JUndef end)
           | None => Some JUndef
           end
  | JStr s =>
      if String.eqb k "length" then Some (JNum (dec (String.length s)))
      else match index_of_key k with
           | Some i => Some (match String.get i s with
                             | Some c => JStr (String c EmptyString)
                             | None => JUndef
                             end)
           | None => Some JUndef
           end
  end.

Fixpoint units_eqb (a b : list N) : bool :=
  match a, b with
  | [], [] => true
  | x :: a', y :: b' => N.eqb x y && units_eqb a' b'
  | _, _ => false
  end.

(** The same on a value of the block; a key is compared code unit by code
    unit. *)
Definition vobj_get (fields : list (list N * jvalue)) (k : string) : option jvalue :=
  fold_left (fun acc kv => if units_eqb (units k) (fst kv) then Some (snd kv) else acc)
            fields None.

(** [parsedOutput.html] and the like.  The keys the program reads ([html],
    [css], [js]) name no method of any prototype. *)
Definition jget (v : jvalue) (k : string) : option jvalue :=
  match v with
  | VUndef | VNull => None
  | VBool _ | VNum _ => Some VUndef
  | VObj fields => Some (match vobj_get fields k with Some x => x | None => VUndef end)
  | VArr l =>
      if String.eqb k "length" then Some (VNum (dec (List.length l)))
      else match index_of_key k with
           | Some i => Some (match nth_error l i with Some x => x | None => VUndef end)
           | None => Some VUndef
           end
  | VStr u =>
      if String.eqb k "length" then Some (VNum (dec (List.length u)))
      else match index_of_key k with
           | Some i => Some (match nth_error u i with
                             | Some x => VStr [x]
                             | None => VUndef
                             end)
           | None => Some VUndef
           end
  end.

(** The mantissa and the exponent part of a number lexeme. *)
Fixpoint split_exponent (lexeme : string) : string * string :=
  match lexeme with
  | EmptyString => (EmptyString, EmptyString)
  | String c s' =>
      if Ascii.eqb c "e" || Ascii.eqb c "E" then (EmptyString, s')
      else let (m, x) := split_exponent s' in (String c m, x)
  end.

(** The digits of [s] read as one decimal numeral; other code units (sign,
    dot) are skipped. *)
Fixpoint digits_value (acc : Z) (s : string) : Z :=
  match s with
  | EmptyString => acc
  | String c s' =>
      if is_digit c then digits_value (10 * acc + Z.of_nat (code c - 48))%Z s'
      else digits_value acc s'
  end.

(** The number of digits after the dot. *)
Fixpoint fraction_digits (after_dot : bool) (s : string) : nat :=
  match s with
  | EmptyString => O
  | String c s' =>
      if Ascii.eqb c "." then fraction_digits true s'
      else (if after_dot && is_digit c then 1 else 0) + fraction_digits after_dot s'
  end.

(** The number of digits from the first non-zero one on. *)
Fixpoint significant_digits (started : bool) (s : string) : nat :=
  match s with
  | EmptyString => O
  | String c s' =>
      if is_digit c then
        let started' := started || negb (Ascii.eqb c "0") in
        (if started' then 1 else 0) + significant_digits started' s'
      else significant_digits started s'
  end.

Definition exponent_value (x : string) : Z :=
  match x with
  | String "-" r => (- digits_value 0 r)%Z
  | _ => digits_value 0 x
  end.

(** [Number(lexeme) === 0].  The literal has the decimal value [M * 10^e]
    ([M] the digits of the mantissa, [e] the exponent less the number of
    fraction digits); [JSON.parse] rounds it to the nearest double, a tie to
    the even one.  So it is [0] exactly when [M = 0] or [M * 10^e] is at most
    [2^-1075], half the least positive double.  With [d] significant digits
    the value lies in [[10^(d+e-1), 10^(d+e))], and [2^-1075] lies between
    [10^-324] and [10^-323]: only [d + e = -323] needs the exact comparison
    [M * 2^1075 <= 10^(-e)]. *)
Definition number_is_zero (lexeme : string) : bool :=
  let (m, x) := split_exponent lexeme in
  let M := digits_value 0 m in
  let e := (exponent_value x - Z.of_nat (fraction_digits false m))%Z in
  let d := Z.of_nat (significant_digits false m) in
  if Z.eqb M 0%Z then true
  else if Z.leb (d + e)%Z (-324)%Z then true
  else if Z.leb (-322)%Z (d + e)%Z then false
  else Z.leb (M * 2 ^ 1075)%Z (10 ^ (- e))%Z.

(** JavaScript truthiness of a value of the block. *)
Definition truthy (v : jvalue) : bool :=
  match v with
  | VUndef | VNull => false
  | VBool b => b
  | VNum lex => negb (number_is_zero lex)
  | VStr u => match u with [] => false | _ :: _ => true end
  | VArr _ | VObj _ => true
  end.

(** [x || ''] *)
Definition or_empty (v : jvalue) : jvalue := if truthy v then v else VStr [].

(** ** The artifact extraction (src/server.js lines 119-128)

    [extract] is the part of [generateWebsiteWithDeepSeek] between the match
    and the file operations.  [ParseError] is the inner [catch]: it catches
    the SyntaxError of [JSON.parse] and the TypeError of [parsedOutput.html]
    on [null]; the file operations inside the same [try] never throw (see
    [executeCommand] and [writeFileContent]). *)
Inductive extraction : Type :=
| Extracted (html css js : jvalue)
| BlockNotFound
| ParseError.

Definition extract (rawContent : string) : extraction :=
  match find_block rawContent with
  | Some block =>
      (* [if (jsonMatch && jsonMatch[1])]: an empty capture is falsy *)
      if String.eqb block EmptyString then BlockNotFound
      else match JSON_parse block with
           | None => ParseError
           | Some parsedOutput =>
               match jget parsedOutput "html", jget parsedOutput "css",
                     jget parsedOutput "js" with
               | Some h, Some c, Some j => Extracted (or_empty h) (or_empty c) (or_empty j)
               | _, _, _ => ParseError
               end
           end
  | None => BlockNotFound
  end.

Definition fenced (content : string) : string := open_marker ++ content ++ close_marker.

(** ** The file system and the two tools *)

(** The file system, keyed by canonical paths: [.] or [./c1/.../cn] with
    non-empty components other than [.] and [..] (see [canonical_path]).
    Every path the program builds has this form; statements about a tool
    called on a path of their own assume it.  A file holds the text read back
    from its UTF-8 bytes, as UTF-16 code units. *)
Record fs : Type := mkFs { dirs : list string; files : list (string * list N) }.

(** The operations that can fail for reasons the state does not record
    (permission denied, disk full, ...): [fault] below says which. *)
Inductive fs_op : Type :=
| OpShellMkdir (path : string)
| OpMkdirRec (path : string)
| OpWriteFile (path : string).

Inductive os_error : Type :=
| EEXIST
| ENOENT
| ENOTDIR
| EISDIR
| EINVALDATA
| EInjected (msg : string).

(** What [exec] resolves with ([stdout], [stderr]) or rejects with. *)
Inductive exec_outcome : Type :=
| ExecOk (stdout stderr : string)
| ExecFail (msg : string).

(** The values [executeCommand] returns (its three template strings). *)
Inductive cmd_result : Type :=
| CmdWarning (stderr : string)     (* `❌ Warning/Error: ${stderr}` *)
| CmdSuccess (stdout : string)     (* `✅ Success: ${stdout || ...}` *)
| CmdError (msg : string).         (* `❌ Error: ${error.message}` *)

(** The values [writeFileContent] returns; both name [filePath]. *)
Inductive write_result : Type :=
| WrittenOk (filePath : string)                 (* `✅ File "${filePath}" written ...` *)
| WriteError (filePath : string) (msg : string). (* `❌ Error writing to "${filePath}": ...` *)

Inductive tool_result : Type :=
| RExec (command : string) (r : cmd_result)
| RWrite (r : write_result).

(** The path a tool acted on: the argument of [mkdir], the written file. *)
Definition write_target (r : write_result) : string :=
  match r with
  | WrittenOk p => p
  | WriteError p _ => p
  end.

Definition tool_target (r : tool_result) : string :=
  match r with
  | RExec command _ => drop 6 command
  | RWrite w => write_target w
  end.

Definition mem (p : string) (l : list string) : bool := existsb (String.eqb p) l.

Definition file_at (st : fs) (p : string) : option (list N) :=
  match find (fun kv => String.eqb p (fst kv)) (files st) with
  | Some kv => Some (snd kv)
  | None => None
  end.

Definition has_file (st : fs) (p : string) : bool :=
  match file_at st p with Some _ => true | None => false end.

Definition add_dir (p : string) (st : fs) : fs :=
  if mem p (dirs st) then st else mkFs (p :: dirs st) (files st).

Definition set_file (p : string) (data : list N) (st : fs) : fs :=
  mkFs (dirs st) ((p, data) :: filter (fun kv => negb (String.eqb p (fst kv))) (files st)).

(** The indices of the ['/'] code units of [s], shifted by [i]. *)
Fixpoint slash_positions (i : nat) (s : string) : list nat :=
  match s with
  | EmptyString => []
  | String c s' =>
      if Ascii.eqb c "/" then i :: slash_positions (S i) s' else slash_positions (S i) s'
  end.

(** [filePath.substring(0, filePath.lastIndexOf('/'))]; without a slash the
    index is -1 and [substring] clamps it to 0. *)
Definition parent_dir (p : string) : string :=
  match rev (slash_positions 0 p) with
  | i :: _ => substring 0 i p
  | [] => EmptyString
  end.

(** The directories [fs.mkdir(p, { recursive: true })] must exist after it:
    every non-empty prefix ending before a slash, and [p]. *)
Definition ancestors (p : string) : list string :=
  filter (fun a => negb (String.eqb a EmptyString))
         (map (fun i => substring 0 i p) (slash_positions 0 p)) ++ [p].

(** The directories the resolution of [p] goes through: the ancestors of
    its parent directory. *)
Definition dirs_above (p : string) : list string :=
  if String.eqb (parent_dir p) EmptyString then [] else ancestors (parent_dir p).

(** The components of a path, split at each ['/']; [cur] is the component
    read so far. *)
Fixpoint path_components (cur s : string) : list string :=
  match s with
  | EmptyString => [cur]
  | String c s' =>
      if Ascii.eqb c "/" then cur :: path_components EmptyString s'
      else path_components (cur ++ String c EmptyString) s'
  end.

Definition canonical_path (p : string) : bool :=
  match path_components EmptyString p with
  | c0 :: cs =>
      String.eqb c0 "."
      && forallb (fun c => negb (String.eqb c EmptyString || String.eqb c "."
                                 || String.eqb c "..")) cs
  | [] => false
  end.

(** A shell word that [/bin/sh] passes to [mkdir] unchanged and that is no
    option: letters, digits, [.], [/], [_], [-], not starting with [-]. *)
Definition plain_char (c : ascii) : bool :=
  let n := code c in
  (Nat.leb 97 n && Nat.leb n 122) || (Nat.leb 65 n && Nat.leb n 90)
  || (Nat.leb 48 n && Nat.leb n 57)
  || Nat.eqb n 46 || Nat.eqb n 47 || Nat.eqb n 95 || Nat.eqb n 45.

Fixpoint all_plain (s : string) : bool :=
  match s with
  | EmptyString => true
  | String c s' => plain_char c && all_plain s'
  end.

Definition plain_word (s : string) : bool :=
  match s with
  | EmptyString => false
  | String c _ => negb (Ascii.eqb c "-") && all_plain s
  end.

Definition is_high_surrogate (u : N) : bool := (N.leb 55296 u && N.leb u 56319)%N.
Definition is_low_surrogate (u : N) : bool := (N.leb 56320 u && N.leb u 57343)%N.

(** The text a file holds after [fs.writeFile] of a string: Node encodes the
    string in UTF-8, each unpaired surrogate as U+FFFD. *)
Fixpoint written_text (u : list N) : list N :=
  match u with
  | [] => []
  | a :: r =>
      if is_high_surrogate a then
        match r with
        | b :: r' => if is_low_surrogate b then a :: b :: written_text r'
                     else 65533%N :: written_text r
        | [] => [65533%N]
        end
      else if is_low_surrogate a then 65533%N :: written_text r
      else a :: written_text r
  end.

(** The behaviour of the platform: the operating system's message for an
    error; the message [exec] rejects with when a command fails; failures of
    single operations not explained by the state (permission denied, disk
    full, ...); [fs.writeFile] on data that is not a string (the text
    written, or [None] when Node rejects the data type); [/bin/sh] on any
    command other than [mkdir <plain word>]; [JSON.stringify]; the message of
    the TypeError thrown when reading property [k] of [v] ([null] or
    [undefined]), and of the one thrown when calling the value of an
    expression that is not a function. *)
Record node_env : Type := {
  os_message : os_error -> string;
  exec_message : string -> os_error -> string;
  fault : fs_op -> option string;
  serialize : jvalue -> option (list N);
  shell_other : string -> fs -> exec_outcome * fs;
  json_stringify : jsval -> string;
  cannot_read : jsval -> string -> string;
  not_a_function : string -> string
}.

Section Node.

Variable E : node_env.

(** [mkdir p] (no [-p]): the directories above [p] must exist (ENOTDIR
    when one of them is a file, ENOENT when one is missing) and [p] must
    not (EEXIST). *)
Definition mkdir_plain (p : string) (st : fs) : option os_error * fs :=
  match fault E (OpShellMkdir p) with
  | Some m => (Some (EInjected m), st)
  | None =>
      if existsb (has_file st) (dirs_above p) then (Some ENOTDIR, st)
      else if negb (forallb (fun a => mem a (dirs st)) (dirs_above p)) then (Some ENOENT, st)
      else if mem p (dirs st) || has_file st p then (Some EEXIST, st)
      else (None, add_dir p st)
  end.

(** [fs.mkdir(p, { recursive: true })]: EEXIST when [p] is a file, ENOTDIR
    when a directory above it is; otherwise the missing directories of
    [ancestors p] are created. *)
Definition mkdir_rec (p : string) (st : fs) : option os_error * fs :=
  match fault E (OpMkdirRec p) with
  | Some m => (Some (EInjected m), st)
  | None =>
      if has_file st p then (Some EEXIST, st)
      else if existsb (has_file st) (ancestors p) then (Some ENOTDIR, st)
      else (None, fold_left (fun acc a => add_dir a acc) (ancestors p) st)
  end.

(** [fs.writeFile(p, data)] once the data is text: the directories above
    [p] must exist (ENOTDIR when one of them is a file, ENOENT when one is
    missing) and [p] must not be a directory (EISDIR). *)
Definition write_file (p : string) (data : list N) (st : fs) : option os_error * fs :=
  match fault E (OpWriteFile p) with
  | Some m => (Some (EInjected m), st)
  | None =>
      if existsb (has_file st) (dirs_above p) then (Some ENOTDIR, st)
      else if negb (forallb (fun a => mem a (dirs st)) (dirs_above p)) then (Some ENOENT, st)
      else if mem p (dirs st) then (Some EISDIR, st)
      else (None, set_file p data st)
  end.

(** [exec(command)] through [/bin/sh]. *)
Definition shell (command : string) (st : fs) : exec_outcome * fs :=
  if prefix "mkdir " command && plain_word (drop 6 command) then
    match mkdir_plain (drop 6 command) st with
    | (None, st') => (ExecOk EmptyString EmptyString, st')
    | (Some e, st') => (ExecFail (exec_message E command e), st')
    end
  else shell_other E command st.

(** [async function executeCommand({ command })] (lines 26-38) *)
Definition executeCommand (command : string) (st : fs) : cmd_result * fs :=
  let (o, st') := shell command st in
  match o with
  | ExecOk stdout stderr =>
      if negb (String.eqb stderr EmptyString) then (CmdWarning stderr, st')
      else (CmdSuccess (if String.eqb stdout EmptyString
                        then "Command executed successfully." else stdout), st')
  | ExecFail m => (CmdError m, st')
  end.

(** The text [fs.writeFile] writes for [content], if Node accepts it. *)
Definition data_of (content : jvalue) : option (list N) :=
  match content with
  | VStr u => Some (written_text u)
  | v => serialize E v
  end.

(** [async function writeFileContent({ filePath, content })] (lines 40-52) *)
Definition writeFileContent (filePath : string) (content : jvalue) (st : fs)
  : write_result * fs :=
  let dir := parent_dir filePath in
  match (if String.eqb dir EmptyString then (None, st) else mkdir_rec dir st) with
  | (Some e, st1) => (WriteError filePath (os_message E e), st1)
  | (None, st1) =>
      match data_of content with
      | None => (WriteError filePath (os_message E EINVALDATA), st1)
      | Some data =>
          match write_file filePath data st1 with
          | (None, st2) => (WrittenOk filePath, st2)
          | (Some e, st2) => (WriteError filePath (os_message E e), st2)
          end
      end
  end.

(** Lines 131-148: the folder, [mkdir], the two writes and the script
    write guarded by [if (jsContent)].  The returned list collects the values
    the tools return, which the source discards. *)
Definition materialize (userProblem : string) (htmlContent cssContent jsContent : jvalue)
  (st : fs) : list tool_result * fs :=
  let pp := projectPath userProblem in
  let command := "mkdir " ++ pp in
  let (r0, st0) := executeCommand command st in
  let (r1, st1) := writeFileContent (pp ++ "/index.html") htmlContent st0 in
  let (r2, st2) := writeFileContent (pp ++ "/style.css") cssContent st1 in
  if truthy jsContent then
    let (r3, st3) := writeFileContent (pp ++ "/script.js") jsContent st2 in
    ([RExec command r0; RWrite r1; RWrite r2; RWrite r3], st3)
  else ([RExec command r0; RWrite r1; RWrite r2], st2).

(** ** The provider call and the handler *)

(** The body of the provider's HTTP reply as [response.json()] sees it. *)
Inductive body : Type :=
| BodyJson (v : jsval)
| BodyNotJson (syntax_message : string).

(** How [fetch(OPENROUTER_API_URL, ...)] ends. *)
Inductive provider_outcome : Type :=
| FetchRejected (msg : string)
| FetchResponse (status : nat) (b : body).

(** The object [generateWebsiteWithDeepSeek] returns. *)
Inductive gen_result : Type :=
| GenSuccess (message : string) (html css js : jvalue)
| GenError (message : string).

Definition response_ok (status : nat) : bool := Nat.leb 200 status && Nat.leb status 299.

(** [data.choices[0].message.content], then [rawContent.match]: [inl] is the
    message of the TypeError thrown on the way.  [get] fails only on [null]
    and [undefined]; [rawContent.match] is [undefined], so not callable, on
    every other value that is not a string. *)
Definition content_of (data : jsval) : string + string :=
  match get data "choices" with
  | None => inl (cannot_read E data "choices")
  | Some ch =>
      match get ch "0" with
      | None => inl (cannot_read E ch "0")
      | Some c0 =>
          match get c0 "message" with
          | None => inl (cannot_read E c0 "message")
          | Some m =>
              match get m "content" with
              | None => inl (cannot_read E m "content")
              | Some (JStr rawContent) => inr rawContent
              | Some ((JUndef | JNull) as v) => inl (cannot_read E v "match")
              | Some _ => inl (not_a_function E "rawContent.match")
              end
          end
      end
  end.

Definition success_message : string := "Website code generated and files created successfully!".

Definition parse_error_message (rawContent : string) : string :=
  "AI response format error: Could not parse JSON from model. Raw content: "
  ++ substring0 200 rawContent ++ "...".

Definition not_found_message (rawContent : string) : string :=
  "AI response format error: JSON block not found in model's output. Raw content: "
  ++ substring0 200 rawContent ++ "...".

Definition generation_error (msg : string) : gen_result :=
  GenError ("Error during AI generation: " ++ msg).

(** [async function generateWebsiteWithDeepSeek(userProblem)] (lines 60-173).
    The outer [catch] turns every thrown error into [generation_error]. *)
Definition generateWebsiteWithDeepSeek (userProblem : string) (prov : provider_outcome)
  (st : fs) : gen_result * fs :=
  match prov with
  | FetchRejected m => (generation_error m, st)
  | FetchResponse status b =>
      if negb (response_ok status) then
        match b with
        | BodyNotJson m => (generation_error m, st)
        | BodyJson errorData =>
            (generation_error ("DeepSeek API error (" ++ dec status ++ "): "
                               ++ json_stringify E errorData), st)
        end
      else
        match b with
        | BodyNotJson m => (generation_error m, st)
        | BodyJson data =>
            match content_of data with
            | inl m => (generation_error m, st)
            | inr rawContent =>
                match extract rawContent with
                | Extracted h c j =>
                    let (_, st') := materialize userProblem h c j st in
                    (GenSuccess success_message h c j, st')
                | ParseError => (GenError (parse_error_message rawContent), st)
                | BlockNotFound => (GenError (not_found_message rawContent), st)
                end
            end
        end
  end.

(** The [userProblem] template of the route (line 195). *)
Definition compose_userProblem (prompt theme : string) : string :=
  "Create a website for the following description: " ++ q ++ prompt ++ q
  ++ ". Use a " ++ q ++ theme ++ q
  ++ " theme. Ensure all necessary HTML, CSS, and JavaScript code is provided in the final structured JSON response.".

(** A template literal's rendering of an optional field. *)
Definition option_default (d : string) (o : option string) : string :=
  match o with Some t => t | None => d end.

(** The HTTP status and the JSON body the route sends. *)
Inductive response : Type :=
| Respond (http_status : nat) (payload : gen_result).

(** [app.post('/generate-website', ...)] (lines 187-205) on a body whose
    [prompt] and [theme] are strings or absent; an absent [theme] is
    interpolated as ["undefined"].  The route's own [catch] is unreachable:
    [generateWebsiteWithDeepSeek] catches everything. *)
Definition handle (prompt theme : option string) (prov : provider_outcome) (st : fs)
  : response * fs :=
  match prompt with
  | None => (Respond 400 (GenError "Prompt is required."), st)
  | Some p =>
      if String.eqb p EmptyString then (Respond 400 (GenError "Prompt is required."), st)
      else
        let up := compose_userProblem p (option_default "undefined" theme) in
        let (r, st') := generateWebsiteWithDeepSeek up prov st in
        (Respond 200 r, st')
  end.

End Node.

(** ** A concrete platform, used by the witnesses and counterexamples *)

Definition os_message0 (e : os_error) : string :=
  match e with
  | EEXIST => "EEXIST: file already exists"
  | ENOENT => "ENOENT: no such file or directory"
  | ENOTDIR => "ENOTDIR: not a directory"
  | EISDIR => "EISDIR: illegal operation on a directory"
  | EINVALDATA => "The data argument must be of type string"
  | EInjected m => m
  end.

(** V8's message for reading property [k] of [null] or [undefined]. *)
Definition cannot_read0 (v : jsval) (k : string) : string :=
  "Cannot read properties of " ++ (match v with JNull => "null" | _ => "undefined" end)
  ++ " (reading '" ++ k ++ "')".

(** No injected fault, a shell that does nothing for other commands. *)
Definition node0 : node_env := {|
  os_message := os_message0;
  exec_message := fun command e => "Command failed: " ++ command ++ nl ++ os_message0 e;
  fault := fun _ => None;
  serialize := fun _ => None;
  shell_other := fun _ st => (ExecOk EmptyString EmptyString, st);
  json_stringify := fun _ => "{}";
  cannot_read := cannot_read0;
  not_a_function := fun e => e ++ " is not a function"
|}.

(** The working directory of the server, with [generated_websites/]. *)
Definition fs_base : fs := mkFs ["."; "./generated_websites"] [].
(** A fresh checkout: the base directory does not exist yet. *)
Definition fs_fresh : fs := mkFs ["."] [].

(** A provider reply whose [choices[0].message.content] is [raw]. *)
Definition reply_data (raw : string) : jsval :=
  JObj [("choices", JArr [JObj [("message",
    JObj [("role", JStr "assistant"); ("content", JStr raw)])]])].

Definition reply_with (raw : string) : provider_outcome :=
  FetchResponse 200 (BodyJson (reply_data raw)).

Definition qk (k : string) : string := q ++ k ++ q.

(** The block of end-to-end scenario A. *)
Definition scenarioA_block : string :=
  "{" ++ qk "html" ++ ":" ++ qk "<h1>Hi</h1>" ++ "," ++ qk "css" ++ ":"
  ++ qk "h1{color:red}" ++ "," ++ qk "js" ++ ":" ++ q ++ q ++ "}".

Definition scenarioA_raw : string := fenced scenarioA_block.

(** [node0] except that writing [p] fails for lack of space. *)
Definition node_nospace (p : string) : node_env := {|
  os_message := os_message0;
  exec_message := fun command e => "Command failed: " ++ command ++ nl ++ os_message0 e;
  fault := fun op => match op with
                     | OpWriteFile p' => if String.eqb p' p
                                         then Some "ENOSPC: no space left on device, write"
                                         else None
                     | _ => None
                     end;
  serialize := fun _ => None;
  shell_other := fun _ st => (ExecOk EmptyString EmptyString, st);
  json_stringify := fun _ => "{}";
  cannot_read := cannot_read0;
  not_a_function := fun e => e ++ " is not a function"
|}.

(** The request of scenario A. *)
Definition scenarioA_up : string := compose_userProblem "a red button page" "minimal".

Definition scenarioA_handle (E : node_env) (st : fs) : response * fs :=
  handle E (Some "a red button page") (Some "minimal") (reply_with scenarioA_raw) st.

(** The folder the server derives for scenario A. *)
Definition scenarioA_folder : string :=
  "create-a-website-for-the-following-description-a-red-button-page-use-a-minimal-theme-ensure-all-necessary-html-css-and-javascript-code-is-provided-in-the-final-structured-json-response".

(** ** Statements about runs

    [confined_to f st st']: from [st] to [st'], only the three artifact files
    of [./generated_websites/f] changed and only [./generated_websites] and
    that folder may have been created. *)
Definition confined_to (f : string) (st st' : fs) : Prop :=
  let P := "./generated_websites/" ++ f in
  (forall x, file_at st' x <> file_at st x ->
             In x [P ++ "/index.html"; P ++ "/style.css"; P ++ "/script.js"])
  /\ (forall d, In d (dirs st') -> In d (dirs st) \/ d = "./generated_websites" \/ d = P).

(** The artifact a key of the parsed object yields, in the words of the
    spec: the key's value when it is truthy (so any non-empty string
    verbatim), the empty string when the key is absent or its value falsy. *)
Definition artifact_of (fields : list (list N * jvalue)) (k : string) (a : jvalue) : Prop :=
  (vobj_get fields k = None -> a = VStr [])
  /\ (forall v, vobj_get fields k = Some v -> truthy v = true -> a = v)
  /\ (forall v, vobj_get fields k = Some v -> truthy v = false -> a = VStr [])
  /\ (forall u, vobj_get fields k = Some (VStr u) -> a = VStr u).

(** ** Vocabulary of the further properties *)

(** The [in_run] flag [replace_runs] carries after reading [s]. *)
Fixpoint run_state (in_run : bool) (s : string) : bool :=
  match s with
  | EmptyString => in_run
  | String c s' => run_state (negb (is_lower_alnum c)) s'
  end.

(** No code unit of [s] is in [a-z0-9]. *)
Fixpoint no_lower_alnum (s : string) : bool :=
  match s with
  | EmptyString => true
  | String c s' => negb (is_lower_alnum c) && no_lower_alnum s'
  end.

(** The number of ASCII letters and digits of [s]. *)
Fixpoint count_ascii_alnum (s : string) : nat :=
  match s with
  | EmptyString => 0
  | String c s' => (if is_ascii_alnum c then 1 else 0) + count_ascii_alnum s'
  end.

(** The number of code units of [s] in [a-z0-9]. *)
Fixpoint count_lower_alnum (s : string) : nat :=
  match s with
  | EmptyString => 0
  | String c s' => (if is_lower_alnum c then 1 else 0) + count_lower_alnum s'
  end.

(** [m] occurs in [s] at some index. *)
Fixpoint occurs (m s : string) : bool :=
  prefix m s || match s with
                | EmptyString => false
                | String _ s' => occurs m s'
                end.

(** [s] holds no backtick. *)
Fixpoint no_backtick (s : string) : bool :=
  match s with
  | EmptyString => true
  | String c s' => negb (Ascii.eqb c "`") && no_backtick s'
  end.

(** A value [JSON.parse] can return that is neither an object nor [null]. *)
Definition non_object_value (v : jvalue) : bool :=
  match v with
  | VBool _ | VNum _ | VStr _ | VArr _ => true
  | VUndef | VNull | VObj _ => false
  end.

(** The slug of the text around the description and the theme in the
    route's instruction template. *)
Definition template_head : string := "create-a-website-for-the-following-description-".

Definition template_tail : string :=
  "theme-ensure-all-necessary-html-css-and-javascript-code-is-provided-in-the-final-structured-json-response".

(** * Properties *)

(** ** Evaluations of the embedding *)
Example folderName_ex1 : folderName "My Cool Site!!" = "my-cool-site".
Proof. reflexivity. Qed.
Example folderName_ex2 : folderName "--__--" = "generated-website".
Proof. reflexivity. Qed.
Example JSON_parse_ex2 : JSON_parse "{,}" = None.
Proof. reflexivity. Qed.
Example JSON_parse_ex1 :
  JSON_parse ("{ " ++ q ++ "html" ++ q ++ ": [1, -2.5e3, true], " ++ q ++ "a" ++ q ++ ":null}")
  = Some (VObj [(units "html", VArr [VNum "1"; VNum "-2.5e3"; VBool true]); (units "a", VNull)]).
Proof. reflexivity. Qed.
Example JSON_parse_ex3 :
  JSON_parse (q ++ "a\u2014b\uD83D\uDE00" ++ q) = Some (VStr [97; 8212; 98; 55357; 56832]%N).
Proof. reflexivity. Qed.
Example truthy_ex1 :
  map truthy [VNum "0"; VNum "-0.0e7"; VNum "1e-400"; VNum "2.4703282292062327e-324";
              VNum "2.4703282292062328e-324"; VNum "5e-324"; VNum "0.1"; VStr []; VStr [0%N]]
  = [false; false; false; false; true; true; true; false; true].
Proof. vm_compute. reflexivity. Qed.
Example extract_ex1 :
  extract ("Here:" ++ nl ++ fenced ("{" ++ q ++ "html" ++ q ++ ":" ++ q ++ "x" ++ q ++ "}") ++ " bye")
  = Extracted (VStr (units "x")) (VStr []) (VStr []).
Proof. reflexivity. Qed.

(** ** The folder name *)

Lemma lower_char_alnum (c : ascii) :
  is_lower_alnum (lower_char c) = is_ascii_alnum c.
Proof. destruct c as [[] [] [] [] [] [] [] []]; reflexivity. Qed.

Lemma lower_char_slug_char (c : ascii) : slug_char c = true -> lower_char c = c.
Proof. destruct c as [[] [] [] [] [] [] [] []]; first [reflexivity | discriminate]. Qed.

Lemma replace_runs_shape (s : string) : forall b,
  slug_chars (replace_runs b s) = true
  /\ no_double_dash (replace_runs b s) = true
  /\ (b = true -> starts_dash (replace_runs b s) = false).
Proof.
  induction s as [|c s IH]; intros b; [now repeat split|].
  simpl. destruct (is_lower_alnum c) eqn:Ha.
  - destruct (IH false) as (H1 & H2 & _). simpl.
    unfold slug_char. rewrite Ha, H1, H2. simpl.
    replace (Ascii.eqb c "-") with false; [repeat split; auto|].
    destruct c as [[] [] [] [] [] [] [] []]; first [reflexivity | discriminate].
  - destruct (IH true) as (H1 & H2 & H3). destruct b.
    + repeat split; auto.
    + simpl. rewrite H1, H2, (H3 eq_refl). repeat split; discriminate.
Qed.

Lemma strip_leading_shape (s : string) :
  (slug_chars s = true -> slug_chars (strip_leading_dashes s) = true)
  /\ (no_double_dash s = true -> no_double_dash (strip_leading_dashes s) = true)
  /\ starts_dash (strip_leading_dashes s) = false.
Proof.
  induction s as [|c s IH]; [now repeat split|].
  destruct (Ascii.eqb c "-") eqn:Hc.
  - apply Ascii.eqb_eq in Hc. subst c. simpl.
    destruct IH as (H1 & H2 & H3). split; [|split]; [| |exact H3];
      intros H; try apply andb_true_iff in H as [_ H]; auto.
  - assert (strip_leading_dashes (String c s) = String c s) as ->.
    { destruct c as [[] [] [] [] [] [] [] []]; first [reflexivity | discriminate]. }
    simpl. rewrite Hc. repeat split; auto.
Qed.

Lemma strip_trailing_starts (s : string) :
  starts_dash (strip_trailing_dashes s) = true -> starts_dash s = true.
Proof.
  destruct s as [|c s]; simpl; [discriminate|].
  destruct (Ascii.eqb c "-" && String.eqb (strip_trailing_dashes s) EmptyString);
    simpl; [discriminate|auto].
Qed.

Lemma strip_trailing_shape (s : string) :
  (slug_chars s = true -> slug_chars (strip_trailing_dashes s) = true)
  /\ (no_double_dash s = true -> no_double_dash (strip_trailing_dashes s) = true)
  /\ ends_dash (strip_trailing_dashes s) = false
  /\ (starts_dash s = false -> starts_dash (strip_trailing_dashes s) = false).
Proof.
  induction s as [|c s IH]; [now repeat split|].
  destruct IH as (H1 & H2 & H3 & H4). simpl.
  destruct (Ascii.eqb c "-" && String.eqb (strip_trailing_dashes s) EmptyString) eqn:Hd.
  - repeat split; auto.
  - repeat split.
    + simpl. intros H. apply andb_true_iff in H as [Hc Hs].
      rewrite Hc. simpl. auto.
    + simpl. intros H. apply andb_true_iff in H as [Hc Hs].
      rewrite (H2 Hs), andb_true_r. apply negb_true_iff.
      destruct (Ascii.eqb c "-"); [|reflexivity]. simpl.
      destruct (starts_dash (strip_trailing_dashes s)) eqn:Hst; [|reflexivity].
      apply strip_trailing_starts in Hst. rewrite Hst in Hc. discriminate.
    + destruct (strip_trailing_dashes s) as [|c' r] eqn:Hr.
      * apply andb_false_iff in Hd.
        destruct Hd as [Hd|Hd]; [simpl; now rewrite Hd|discriminate].
      * simpl. exact H3.
    + simpl. auto.
Qed.

Lemma toLowerCase_slug (t : string) : slug_chars t = true -> toLowerCase t = t.
Proof.
  induction t as [|c t IH]; simpl; [reflexivity|].
  intros H. apply andb_true_iff in H as [Hc Ht].
  now rewrite lower_char_slug_char, IH.
Qed.

Lemma replace_runs_slug (t : string) : forall b,
  slug_chars t = true -> no_double_dash t = true ->
  (b = true -> starts_dash t = false) -> replace_runs b t = t.
Proof.
  induction t as [|c t IH]; intros b Hs Hn Hb; [reflexivity|].
  simpl in Hs, Hn. apply andb_true_iff in Hs as [Hc Hs].
  apply andb_true_iff in Hn as [Hnc Hn].
  simpl. destruct (is_lower_alnum c) eqn:Ha.
  - rewrite IH; auto. discriminate.
  - unfold slug_char in Hc. rewrite Ha in Hc. simpl in Hc.
    apply Ascii.eqb_eq in Hc. subst c. destruct b.
    + specialize (Hb eq_refl). discriminate.
    + rewrite IH; auto. intros _.
      destruct (starts_dash t); [discriminate|reflexivity].
Qed.

Lemma strip_leading_id (t : string) : starts_dash t = false -> strip_leading_dashes t = t.
Proof.
  destruct t as [|c t]; [reflexivity|]. simpl. intros H.
  destruct c as [[] [] [] [] [] [] [] []]; first [reflexivity | discriminate].
Qed.

Lemma strip_trailing_id (t : string) : ends_dash t = false -> strip_trailing_dashes t = t.
Proof.
  induction t as [|c t IH]; [reflexivity|]. intros H. simpl.
  destruct t as [|c' t'].
  - simpl in H. simpl. now rewrite H.
  - rewrite IH by exact H. rewrite andb_false_r. reflexivity.
Qed.

Lemma no_alnum_runs (s : string) : has_alnum s = false -> forall b,
  strip_leading_dashes (replace_runs b (toLowerCase s)) = EmptyString.
Proof.
  induction s as [|c s IH]; intros H b; [reflexivity|].
  simpl in H. apply orb_false_iff in H as [Hc Hs].
  simpl. rewrite lower_char_alnum, Hc.
  destruct b; simpl; auto.
Qed.

(** The folder name has the shape of a slug and is never empty. *)
Lemma folderName_shape (s : string) :
  folderName s <> EmptyString
  /\ slug_chars (folderName s) = true
  /\ no_double_dash (folderName s) = true
  /\ starts_dash (folderName s) = false
  /\ ends_dash (folderName s) = false.
Proof.
  unfold folderName, trim_dashes.
  destruct (replace_runs_shape (toLowerCase s) false) as (R1 & R2 & _).
  destruct (strip_leading_shape (replace_runs false (toLowerCase s))) as (L1 & L2 & L3).
  destruct (strip_trailing_shape (strip_leading_dashes (replace_runs false (toLowerCase s))))
    as (T1 & T2 & T3 & T4).
  destruct (String.eqb _ EmptyString) eqn:He.
  - repeat split; [discriminate|reflexivity..].
  - apply String.eqb_neq in He. repeat split; auto.
Qed.

(** A string of that shape is its own folder name. *)
Lemma folderName_fixed (t : string) :
  t <> EmptyString -> slug_chars t = true -> no_double_dash t = true ->
  starts_dash t = false -> ends_dash t = false -> folderName t = t.
Proof.
  intros Hne Hs Hn Hst Hen. unfold folderName, trim_dashes.
  rewrite toLowerCase_slug, replace_runs_slug, strip_leading_id, strip_trailing_id by
    (auto; discriminate).
  destruct (String.eqb t EmptyString) eqn:He; [apply String.eqb_eq in He; contradiction|].
  reflexivity.
Qed.

Lemma folderName_no_alnum (s : string) :
  has_alnum s = false -> folderName s = "generated-website".
Proof.
  intros H. unfold folderName, trim_dashes. rewrite (no_alnum_runs s H false).
  reflexivity.
Qed.

(** C6: the folder-name derivation is total and idempotent: every input
    gives a non-empty name made of [a-z0-9] and single dashes, with no dash
    at either end; an input without an ASCII letter or digit (the empty
    input among them) gives ["generated-website"]; deriving the name of a
    name returns it unchanged; ["My Cool Site!!"] gives ["my-cool-site"]. *)
Theorem folderName_total_idempotent (s : string) :
  folderName s <> EmptyString
  /\ slug_chars (folderName s) = true
  /\ no_double_dash (folderName s) = true
  /\ starts_dash (folderName s) = false
  /\ ends_dash (folderName s) = false
  /\ folderName (folderName s) = folderName s
  /\ (has_alnum s = false -> folderName s = "generated-website")
  /\ folderName EmptyString = "generated-website"
  /\ folderName "My Cool Site!!" = "my-cool-site".
Proof.
  destruct (folderName_shape s) as (H1 & H2 & H3 & H4 & H5).
  repeat split; auto.
  - apply folderName_fixed; auto.
  - apply folderName_no_alnum.
Qed.

(** ** Paths *)

Lemma slug_char_not_slash (c : ascii) : slug_char c = true -> Ascii.eqb c "/" = false.
Proof. destruct c as [[] [] [] [] [] [] [] []]; first [reflexivity | discriminate]. Qed.

Lemma slug_char_plain (c : ascii) : slug_char c = true -> plain_char c = true.
Proof. destruct c as [[] [] [] [] [] [] [] []]; first [reflexivity | discriminate]. Qed.

Lemma slug_no_slash (f : string) : forall i, slug_chars f = true -> slash_positions i f = [].
Proof.
  induction f as [|c f IH]; intros i H; [reflexivity|].
  simpl in H. apply andb_true_iff in H as [Hc Hf].
  simpl. rewrite slug_char_not_slash by exact Hc. auto.
Qed.

Lemma slug_all_plain (f : string) : slug_chars f = true -> all_plain f = true.
Proof.
  induction f as [|c f IH]; intros H; [reflexivity|].
  simpl in H. apply andb_true_iff in H as [Hc Hf].
  simpl. rewrite slug_char_plain, IH; auto.
Qed.

Lemma slash_positions_app (a b : string) : forall i,
  slash_positions i (a ++ b) = (slash_positions i a ++ slash_positions (i + String.length a) b)%list.
Proof.
  induction a as [|c a IH]; intros i; simpl.
  - now rewrite Nat.add_0_r.
  - rewrite !IH, Nat.add_succ_r. destruct (Ascii.eqb c "/"); reflexivity.
Qed.

Lemma substring_app_length (a b : string) : substring 0 (String.length a) (a ++ b) = a.
Proof. induction a as [|c a IH]; simpl; [now destruct b|now rewrite IH]. Qed.

Lemma append_cancel_l (a b c : string) : a ++ b = a ++ c -> b = c.
Proof. induction a as [|x a IH]; simpl; auto. intros H. injection H. auto. Qed.

Definition base_dir : string := "./generated_websites".

Lemma projectPath_split (up : string) :
  projectPath up = base_dir ++ "/" ++ folderName up.
Proof. reflexivity. Qed.

Lemma ancestors_projectPath (up : string) :
  ancestors (projectPath up) = ["."; base_dir; projectPath up].
Proof.
  unfold ancestors, projectPath.
  rewrite slash_positions_app, (slug_no_slash _ _ (proj1 (proj2 (folderName_shape up)))).
  reflexivity.
Qed.

Lemma parent_dir_in_project (up name : string) :
  (forall i, slash_positions i name = []) ->
  parent_dir (projectPath up ++ "/" ++ name) = projectPath up.
Proof.
  intros Hn. unfold parent_dir. remember (projectPath up) as P eqn:HP.
  rewrite slash_positions_app.
  replace (slash_positions (0 + String.length P) ("/" ++ name)) with [String.length P]
    by (simpl; now rewrite Hn).
  rewrite rev_app_distr. apply substring_app_length.
Qed.

(** ** Frame lemmas of the file-system operations *)

Lemma mem_In (p : string) (l : list string) : mem p l = true <-> In p l.
Proof.
  unfold mem. rewrite existsb_exists. split.
  - intros (x & Hx & He). apply String.eqb_eq in He. now subst.
  - intros H. exists p. split; auto. apply String.eqb_refl.
Qed.

Lemma file_at_set_file (p x : string) (d : list N) (st : fs) :
  file_at (set_file p d st) x = if String.eqb x p then Some d else file_at st x.
Proof.
  unfold file_at, set_file. simpl.
  destruct (String.eqb x p) eqn:Hx; [reflexivity|].
  induction (files st) as [|[k v] l IH]; simpl; [reflexivity|].
  destruct (String.eqb p k) eqn:Hp; simpl.
  - apply String.eqb_eq in Hp. subst k. rewrite Hx. exact IH.
  - destruct (String.eqb x k); [reflexivity|exact IH].
Qed.

Lemma add_dir_frame (p : string) (st : fs) :
  files (add_dir p st) = files st
  /\ (forall d, In d (dirs (add_dir p st)) -> In d (dirs st) \/ d = p).
Proof.
  unfold add_dir. destruct (mem p (dirs st)); simpl; split; auto.
  intros d [H|H]; auto.
Qed.

Lemma add_dirs_frame (l : list string) : forall st,
  files (fold_left (fun acc a => add_dir a acc) l st) = files st
  /\ (forall d, In d (dirs (fold_left (fun acc a => add_dir a acc) l st)) ->
                In d (dirs st) \/ In d l).
Proof.
  induction l as [|a l IH]; intros st; simpl; [split; auto|].
  destruct (IH (add_dir a st)) as [H1 H2]. destruct (add_dir_frame a st) as [H3 H4].
  split; [congruence|].
  intros d Hd. destruct (H2 d Hd) as [H|H]; auto.
  destruct (H4 d H); auto.
Qed.

Lemma fold_add_dirs_in (l : list string) : forall st a,
  In a l \/ In a (dirs st) -> In a (dirs (fold_left (fun acc x => add_dir x acc) l st)).
Proof.
  induction l as [|x l IH]; intros st a H; simpl; [destruct H as [[]|H]; exact H|].
  apply IH. destruct H as [[Hx|H]|H].
  - right. subst x. unfold add_dir.
    destruct (mem a (dirs st)) eqn:Hm; [apply mem_In; exact Hm|left; reflexivity].
  - left. exact H.
  - right. unfold add_dir. destruct (mem x (dirs st)); [exact H|right; exact H].
Qed.

Lemma ancestors_self (p : string) : In p (ancestors p).
Proof. unfold ancestors. apply in_or_app. right. left. reflexivity. Qed.

Lemma file_at_files (st st' : fs) (x : string) : files st' = files st -> file_at st' x = file_at st x.
Proof. intros H. unfold file_at. now rewrite H. Qed.

Section Frames.

Variable E : node_env.

Lemma mkdir_plain_frame (p : string) (st st' : fs) o :
  mkdir_plain E p st = (o, st') ->
  files st' = files st /\ (forall d, In d (dirs st') -> In d (dirs st) \/ d = p).
Proof.
  unfold mkdir_plain. destruct (fault E (OpShellMkdir p)).
  - intros [= _ <-]. split; auto.
  - destruct (existsb _ _); [intros [= _ <-]; split; auto|].
    destruct (negb _); [intros [= _ <-]; split; auto|].
    destruct (_ || _); intros [= _ <-]; [split; auto|apply add_dir_frame].
Qed.

Lemma mkdir_rec_frame (p : string) (st st' : fs) o :
  mkdir_rec E p st = (o, st') ->
  files st' = files st /\ (forall d, In d (dirs st') -> In d (dirs st) \/ In d (ancestors p)).
Proof.
  unfold mkdir_rec. destruct (fault E (OpMkdirRec p)).
  - intros [= _ <-]. split; auto.
  - destruct (has_file st p); [intros [= _ <-]; split; auto|].
    destruct (existsb _ _); intros [= _ <-]; [split; auto|apply add_dirs_frame].
Qed.

Lemma write_file_frame (p : string) (data : list N) (st st' : fs) o :
  write_file E p data st = (o, st') ->
  dirs st' = dirs st
  /\ (forall x, x <> p -> file_at st' x = file_at st x)
  /\ (o = None -> file_at st' p = Some data).
Proof.
  unfold write_file. destruct (fault E (OpWriteFile p)).
  - intros [= <- <-]. repeat split; auto. discriminate.
  - destruct (existsb _ _); [intros [= <- <-]; repeat split; auto; discriminate|].
    destruct (negb _); [intros [= <- <-]; repeat split; auto; discriminate|].
    destruct (mem p (dirs st)); intros [= <- <-]; repeat split; auto; try discriminate.
    + intros x Hx. rewrite file_at_set_file.
      destruct (String.eqb x p) eqn:E'; [apply String.eqb_eq in E'; contradiction|auto].
    + intros _. rewrite file_at_set_file, String.eqb_refl. reflexivity.
Qed.

Lemma writeFileContent_frame (filePath : string) (content : jvalue) (st st' : fs) r :
  writeFileContent E filePath content st = (r, st') ->
  write_target r = filePath
  /\ (forall x, x <> filePath -> file_at st' x = file_at st x)
  /\ (forall d, In d (dirs st') -> In d (dirs st) \/ In d (ancestors (parent_dir filePath)))
  /\ (r = WrittenOk filePath ->
      exists data, data_of E content = Some data /\ file_at st' filePath = Some data).
Proof.
  unfold writeFileContent.
  destruct (if String.eqb (parent_dir filePath) EmptyString then (None, st)
            else mkdir_rec E (parent_dir filePath) st) as [o1 st1] eqn:Hm.
  assert (Hf1 : files st1 = files st
                /\ (forall d, In d (dirs st1) -> In d (dirs st)
                              \/ In d (ancestors (parent_dir filePath)))).
  { destruct (String.eqb (parent_dir filePath) EmptyString).
    - injection Hm as _ <-. split; auto.
    - eapply mkdir_rec_frame. exact Hm. }
  destruct Hf1 as [Hfiles Hdirs].
  assert (Hfa : forall x, file_at st1 x = file_at st x)
    by (intros x; unfold file_at; now rewrite Hfiles).
  destruct o1 as [e|].
  - intros [= <- <-]. repeat split; auto. discriminate.
  - destruct (data_of E content) as [data|] eqn:Hd.
    + destruct (write_file E filePath data st1) as [o2 st2] eqn:Hw.
      destruct (write_file_frame _ _ _ _ _ Hw) as (W1 & W2 & W3).
      destruct o2; intros [= <- <-]; repeat split.
      * intros x Hx. rewrite W2; auto.
      * intros d Hd'. rewrite W1 in Hd'. auto.
      * discriminate.
      * intros x Hx. rewrite W2; auto.
      * intros d Hd'. rewrite W1 in Hd'. auto.
      * intros _. exists data. auto.
    + intros [= <- <-]. repeat split; auto. discriminate.
Qed.

Lemma mkdir_rec_ok (p : string) (st : fs) :
  fault E (OpMkdirRec p) = None ->
  (forall a, In a (ancestors p) -> has_file st a = false) ->
  mkdir_rec E p st = (None, fold_left (fun acc a => add_dir a acc) (ancestors p) st).
Proof.
  intros Hf Ha. unfold mkdir_rec. rewrite Hf, (Ha p (ancestors_self p)).
  destruct (existsb (has_file st) (ancestors p)) eqn:Hx; [|reflexivity].
  apply existsb_exists in Hx as (a & Hin & H). rewrite (Ha a Hin) in H. discriminate.
Qed.

Lemma mkdir_rec_dirs_mono (p : string) (st st' : fs) o :
  mkdir_rec E p st = (o, st') -> forall d, In d (dirs st) -> In d (dirs st').
Proof.
  unfold mkdir_rec. destruct (fault E (OpMkdirRec p)); [intros [= _ <-]; auto|].
  destruct (has_file st p); [intros [= _ <-]; auto|].
  destruct (existsb _ _); intros [= _ <-]; auto.
  intros d Hd. apply fold_add_dirs_in. right. exact Hd.
Qed.

Lemma writeFileContent_dirs_mono (filePath : string) (content : jvalue) (st st' : fs) r :
  writeFileContent E filePath content st = (r, st') -> forall d, In d (dirs st) -> In d (dirs st').
Proof.
  unfold writeFileContent.
  destruct (if String.eqb (parent_dir filePath) EmptyString then (None, st)
            else mkdir_rec E (parent_dir filePath) st) as [o1 st1] eqn:Hm.
  assert (M : forall d, In d (dirs st) -> In d (dirs st1)).
  { destruct (String.eqb (parent_dir filePath) EmptyString).
    - injection Hm as _ <-. auto.
    - eapply mkdir_rec_dirs_mono. exact Hm. }
  destruct o1 as [e|]; [intros [= _ <-]; exact M|].
  destruct (data_of E content) as [data|]; [|intros [= _ <-]; exact M].
  destruct (write_file E filePath data st1) as [o2 st2] eqn:Hw.
  destruct (write_file_frame _ _ _ _ _ Hw) as (W1 & _).
  destruct o2; intros [= _ <-]; intros d Hd; rewrite W1; auto.
Qed.

(** Whatever the data and the write give, the folders above the target
    exist after [writeFileContent] when its [mkdir] is not refused. *)
Lemma writeFileContent_parents (filePath : string) (content : jvalue) (st st' : fs) r :
  fault E (OpMkdirRec (parent_dir filePath)) = None ->
  parent_dir filePath <> EmptyString ->
  (forall a, In a (ancestors (parent_dir filePath)) -> has_file st a = false) ->
  writeFileContent E filePath content st = (r, st') ->
  forall a, In a (ancestors (parent_dir filePath)) -> In a (dirs st').
Proof.
  intros Hf Hne Ha H a Hin. revert H. unfold writeFileContent.
  apply String.eqb_neq in Hne. rewrite Hne, (mkdir_rec_ok _ _ Hf Ha).
  assert (M : In a (dirs (fold_left (fun acc a => add_dir a acc) (ancestors (parent_dir filePath)) st)))
    by (apply fold_add_dirs_in; left; exact Hin).
  revert M. generalize (fold_left (fun acc a => add_dir a acc) (ancestors (parent_dir filePath)) st).
  intros st1 M.
  destruct (data_of E content) as [data|]; [|intros [= _ <-]; exact M].
  destruct (write_file E filePath data st1) as [o2 st2] eqn:Hw.
  destruct (write_file_frame _ _ _ _ _ Hw) as (W1 & _).
  destruct o2; intros [= _ <-]; rewrite W1; exact M.
Qed.

End Frames.

Lemma prefix_app_self (a b : string) : prefix a (a ++ b) = true.
Proof.
  induction a as [|c a IH]; simpl; [now destruct b|].
  destruct (ascii_dec c c); [exact IH|contradiction].
Qed.

Section Materialize.

Variable E : node_env.

Lemma plain_word_projectPath (up : string) : plain_word (projectPath up) = true.
Proof.
  unfold projectPath. simpl.
  apply slug_all_plain, (proj1 (proj2 (folderName_shape up))).
Qed.

Lemma executeCommand_mkdir_frame (p : string) (st st' : fs) r :
  plain_word p = true ->
  executeCommand E ("mkdir " ++ p) st = (r, st') ->
  files st' = files st /\ (forall d, In d (dirs st') -> In d (dirs st) \/ d = p).
Proof.
  intros Hp. unfold executeCommand, shell. rewrite prefix_app_self.
  simpl (drop _ _). rewrite Hp. simpl.
  destruct (mkdir_plain E p st) as [o st1] eqn:Hm.
  destruct (mkdir_plain_frame _ _ _ _ _ Hm) as [H1 H2].
  destruct o; cbn; intros H; inversion H; subst; split; assumption.
Qed.

Lemma materialize_steps (up : string) (h c j : jvalue) (st st' : fs) rs :
  materialize E up h c j st = (rs, st') ->
  exists r0 st0 r1 st1 r2 st2,
    executeCommand E ("mkdir " ++ projectPath up) st = (r0, st0)
    /\ writeFileContent E (projectPath up ++ "/index.html") h st0 = (r1, st1)
    /\ writeFileContent E (projectPath up ++ "/style.css") c st1 = (r2, st2)
    /\ (if truthy j then
          exists r3, writeFileContent E (projectPath up ++ "/script.js") j st2 = (r3, st')
                     /\ rs = [RExec ("mkdir " ++ projectPath up) r0; RWrite r1; RWrite r2; RWrite r3]
        else st' = st2 /\ rs = [RExec ("mkdir " ++ projectPath up) r0; RWrite r1; RWrite r2]).
Proof.
  unfold materialize.
  destruct (executeCommand E _ st) as [r0 st0] eqn:H0.
  destruct (writeFileContent E _ h st0) as [r1 st1] eqn:H1.
  destruct (writeFileContent E _ c st1) as [r2 st2] eqn:H2.
  intros H. exists r0, st0, r1, st1, r2, st2. repeat split; auto.
  destruct (truthy j).
  - destruct (writeFileContent E _ j st2) as [r3 st3] eqn:H3.
    injection H as <- <-. eauto.
  - injection H as <- <-. auto.
Qed.

Lemma generate_state (up : string) prov (st st' : fs) r :
  generateWebsiteWithDeepSeek E up prov st = (r, st') ->
  st' = st \/ exists h c j rs, materialize E up h c j st = (rs, st').
Proof.
  unfold generateWebsiteWithDeepSeek.
  destruct prov as [m|status b]; [intros [= _ <-]; auto|].
  destruct (negb (response_ok status)).
  - destruct b; intros [= _ <-]; auto.
  - destruct b as [data|m]; [|intros [= _ <-]; auto].
    destruct (content_of E data) as [m|raw]; [intros [= _ <-]; auto|].
    destruct (extract raw) as [h c j| |]; try (intros [= _ <-]; auto).
    destruct (materialize E up h c j st) as [rs st1] eqn:Hm.
    intros [= _ <-]. right. eauto.
Qed.

Definition project_files (up : string) : list string :=
  [projectPath up ++ "/index.html"; projectPath up ++ "/style.css";
   projectPath up ++ "/script.js"].

Lemma materialize_frame (up : string) (h c j : jvalue) (st st' : fs) rs :
  materialize E up h c j st = (rs, st') ->
  (forall x, file_at st' x <> file_at st x -> In x (project_files up))
  /\ (forall d, In d (dirs st') -> In d (dirs st) \/ In d ["."; base_dir; projectPath up])
  /\ Forall (fun r => In (tool_target r) (projectPath up :: project_files up)) rs.
Proof.
  intros Hm.
  destruct (materialize_steps _ _ _ _ _ _ _ Hm)
    as (r0 & st0 & r1 & st1 & r2 & st2 & H0 & H1 & H2 & H3).
  destruct (executeCommand_mkdir_frame _ _ _ _ (plain_word_projectPath up) H0) as [F0 D0].
  destruct (writeFileContent_frame _ _ _ _ _ _ H1) as (T1 & F1 & D1 & _).
  destruct (writeFileContent_frame _ _ _ _ _ _ H2) as (T2 & F2 & D2 & _).
  assert (Pi : parent_dir (projectPath up ++ "/index.html") = projectPath up)
    by exact (parent_dir_in_project up "index.html" (fun _ => eq_refl)).
  assert (Ps : parent_dir (projectPath up ++ "/style.css") = projectPath up)
    by exact (parent_dir_in_project up "style.css" (fun _ => eq_refl)).
  assert (Pj : parent_dir (projectPath up ++ "/script.js") = projectPath up)
    by exact (parent_dir_in_project up "script.js" (fun _ => eq_refl)).
  rewrite Pi, ancestors_projectPath in D1. rewrite Ps, ancestors_projectPath in D2.
  assert (Fa0 : forall x, file_at st0 x = file_at st x)
    by (intros x; unfold file_at; now rewrite F0).
  assert (Dst2 : forall d, In d (dirs st2) -> In d (dirs st) \/ In d ["."; base_dir; projectPath up]).
  { intros d Hd. destruct (D2 d Hd) as [Hd1|Hd1]; auto.
    destruct (D1 d Hd1) as [Hd0|Hd0]; auto.
    destruct (D0 d Hd0) as [Hd'|Hd']; auto. subst d. right. simpl. auto. }
  destruct (truthy j).
  - destruct H3 as (r3 & H3 & ->).
    destruct (writeFileContent_frame _ _ _ _ _ _ H3) as (T3 & F3 & D3 & _).
    rewrite Pj, ancestors_projectPath in D3.
    repeat split.
    + intros x Hx. destruct (in_dec string_dec x (project_files up)) as [Hin|Hn]; auto.
      exfalso. apply Hx. unfold project_files in Hn.
      rewrite F3, F2, F1, Fa0; [reflexivity|intros ->; apply Hn; simpl; tauto..].
    + intros d Hd. destruct (D3 d Hd) as [Hd'|Hd']; auto.
    + apply Forall_forall. intros r Hr.
      destruct Hr as [<-|[<-|[<-|[<-|[]]]]]; unfold tool_target, project_files.
      * left. reflexivity.
      * rewrite T1. right. left. reflexivity.
      * rewrite T2. right. right. left. reflexivity.
      * rewrite T3. right. right. right. left. reflexivity.
  - destruct H3 as [-> ->].
    repeat split.
    + intros x Hx. destruct (in_dec string_dec x (project_files up)) as [Hin|Hn]; auto.
      exfalso. apply Hx. unfold project_files in Hn.
      rewrite F2, F1, Fa0; [reflexivity|intros ->; apply Hn; simpl; tauto..].
    + exact Dst2.
    + apply Forall_forall. intros r Hr.
      destruct Hr as [<-|[<-|[<-|[]]]]; unfold tool_target, project_files.
      * left. reflexivity.
      * rewrite T1. right. left. reflexivity.
      * rewrite T2. right. right. left. reflexivity.
Qed.

End Materialize.

(** C10: whatever the description and the theme, the folder name is a
    non-empty word of [a-z0-9] and dashes (so it holds no ['/'] and no
    ['.']), the project path is ["./generated_websites/"] followed by it, the
    [mkdir] command gets it as one plain shell word, every tool call targets
    that folder or one of its three artifact files, and a request changes
    only those files and creates only [./generated_websites] and the folder
    (the working directory [.] exists). *)
Theorem handle_confined (E : node_env) (prompt theme : option string) prov (st st' : fs) resp :
  In "." (dirs st) ->
  handle E prompt theme prov st = (resp, st') ->
  let f := folderName (compose_userProblem (option_default EmptyString prompt)
                                           (option_default "undefined" theme)) in
  slug_chars f = true /\ f <> EmptyString
  /\ projectPath (compose_userProblem (option_default EmptyString prompt)
                                      (option_default "undefined" theme))
     = "./generated_websites/" ++ f
  /\ confined_to f st st'
  /\ (forall up h c j st0 st1 rs,
        materialize E up h c j st0 = (rs, st1) ->
        plain_word (projectPath up) = true
        /\ Forall (fun r => In (tool_target r) (projectPath up :: project_files up)) rs).
Proof.
  intros Hdot Hh f.
  destruct (folderName_shape (compose_userProblem (option_default EmptyString prompt)
                                                  (option_default "undefined" theme)))
    as (S1 & S2 & _).
  split; [exact S2|]. split; [exact S1|]. split; [reflexivity|]. split.
  - assert (Same : confined_to f st st)
      by (split; [intros x Hx; contradiction|intros d Hd; auto]).
    unfold handle in Hh.
    destruct prompt as [p|]; [|injection Hh as _ <-; exact Same].
    destruct (String.eqb p EmptyString); [injection Hh as _ <-; exact Same|].
    destruct (generateWebsiteWithDeepSeek E (compose_userProblem p (option_default "undefined" theme)) prov st) as [r st1] eqn:Hg.
    injection Hh as _ <-.
    destruct (generate_state _ _ _ _ _ _ Hg) as [->|(h & c & j & rs & Hm)]; [exact Same|].
    destruct (materialize_frame _ _ _ _ _ _ _ _ Hm) as (F & D & _).
    split.
    + intros x Hx. apply F in Hx. exact Hx.
    + intros d Hd. destruct (D d Hd) as [H|[H|[H|[H|[]]]]]; auto; subst d; auto.
  - intros up h c j st0 st1 rs Hm. split; [apply plain_word_projectPath|].
    exact (proj2 (proj2 (materialize_frame _ _ _ _ _ _ _ _ Hm))).
Qed.

(** ** Extraction *)

Lemma substring0_excerpt (n : nat) (s : string) :
  prefix (substring0 n s) s = true /\ String.length (substring0 n s) = Nat.min n (String.length s).
Proof.
  unfold substring0. revert n.
  induction s as [|c s IH]; intros [|n]; simpl; try (split; reflexivity).
  destruct (IH n) as [H1 H2]. split; [|now rewrite H2].
  destruct (ascii_dec c c); [exact H1|contradiction].
Qed.

Lemma or_empty_spec (fields : list (list N * jvalue)) (k : string) :
  artifact_of fields k (or_empty (match vobj_get fields k with Some x => x | None => VUndef end)).
Proof.
  unfold artifact_of, or_empty. repeat split.
  - intros ->. reflexivity.
  - intros v -> Hv. now rewrite Hv.
  - intros v -> Hv. now rewrite Hv.
  - intros u ->. simpl. destruct u; reflexivity.
Qed.

(** C1 (amended): when the first fenced block of the reply (the leftmost
    opening marker, its content ending at the nearest following newline and
    closing marker) is non-empty and parses to a JSON object, extraction
    succeeds; markup, stylesheet and script are the values of [html], [css]
    and [js] when truthy (any non-empty string verbatim) and the empty
    string when the key is absent or its value falsy ([null], [false], the
    empty string, or a number equal to zero, such as [0] or [1e-400]). *)
Theorem extract_object_block (raw block : string) (fields : list (list N * jvalue)) :
  find_block raw = Some block ->
  block <> EmptyString ->
  JSON_parse block = Some (VObj fields) ->
  exists h c j, extract raw = Extracted h c j
    /\ artifact_of fields "html" h /\ artifact_of fields "css" c /\ artifact_of fields "js" j.
Proof.
  intros Hf Hne Hp. unfold extract. rewrite Hf.
  destruct (String.eqb block EmptyString) eqn:He; [apply String.eqb_eq in He; contradiction|].
  rewrite Hp. simpl.
  eexists _, _, _. split; [reflexivity|].
  repeat split; apply or_empty_spec.
Qed.

(** C3 (amended): a reply with no fenced block, or whose first fenced block
    is empty, fails with the block-not-found message; one whose first fenced
    block is non-empty and not valid JSON fails with the parse-error
    message.  Both messages embed the first 200 code units of the reply (all
    of it when shorter), the response has status error and no file is
    touched. *)
Theorem extract_failures (E : node_env) (up raw : string) (data : jsval) (status : nat) (st : fs) :
  response_ok status = true ->
  content_of E data = inr raw ->
  prefix (substring0 200 raw) raw = true
  /\ String.length (substring0 200 raw) = Nat.min 200 (String.length raw)
  /\ ((find_block raw = None \/ find_block raw = Some EmptyString) ->
      extract raw = BlockNotFound
      /\ generateWebsiteWithDeepSeek E up (FetchResponse status (BodyJson data)) st
         = (GenError ("AI response format error: JSON block not found in model's output. Raw content: "
                      ++ substring0 200 raw ++ "..."), st))
  /\ (forall block, find_block raw = Some block -> block <> EmptyString ->
      JSON_parse block = None ->
      extract raw = ParseError
      /\ generateWebsiteWithDeepSeek E up (FetchResponse status (BodyJson data)) st
         = (GenError ("AI response format error: Could not parse JSON from model. Raw content: "
                      ++ substring0 200 raw ++ "..."), st)).
Proof.
  intros Hok Hc. destruct (substring0_excerpt 200 raw) as [X1 X2].
  split; [exact X1|]. split; [exact X2|].
  assert (G : forall x, extract raw = x ->
            generateWebsiteWithDeepSeek E up (FetchResponse status (BodyJson data)) st
            = match x with
              | Extracted h c j => let (_, st') := materialize E up h c j st in
                                   (GenSuccess success_message h c j, st')
              | ParseError => (GenError (parse_error_message raw), st)
              | BlockNotFound => (GenError (not_found_message raw), st)
              end).
  { intros x Hx. unfold generateWebsiteWithDeepSeek. rewrite Hok, Hc. simpl. now rewrite Hx. }
  split.
  - intros Hb. assert (Hx : extract raw = BlockNotFound).
    { unfold extract. destruct Hb as [-> | ->]; reflexivity. }
    split; [exact Hx|]. rewrite (G _ Hx). reflexivity.
  - intros block Hb Hne Hp. assert (Hx : extract raw = ParseError).
    { unfold extract. rewrite Hb.
      destruct (String.eqb block EmptyString) eqn:He; [apply String.eqb_eq in He; contradiction|].
      now rewrite Hp. }
    split; [exact Hx|]. rewrite (G _ Hx). reflexivity.
Qed.

(** ** Runs of the generator *)

Lemma or_empty_cases (v : jvalue) :
  truthy (or_empty v) = true \/ or_empty v = VStr [].
Proof. unfold or_empty. destruct (truthy v) eqn:H; auto. Qed.

Lemma extract_or_empty (raw : string) (h c j : jvalue) :
  extract raw = Extracted h c j ->
  exists vh vc vj, h = or_empty vh /\ c = or_empty vc /\ j = or_empty vj.
Proof.
  unfold extract. intros Hx.
  destruct (find_block raw) as [block|]; [|discriminate].
  destruct (String.eqb block EmptyString); [discriminate|].
  destruct (JSON_parse block) as [v|]; [|discriminate].
  destruct (jget v "html"), (jget v "css"), (jget v "js"); try discriminate.
  injection Hx as <- <- <-. exists j0, j1, j2. auto.
Qed.

Lemma truthy_extracted (v : jvalue) :
  truthy (or_empty v) = true <-> or_empty v <> VStr [].
Proof.
  split.
  - intros Ht He. rewrite He in Ht. discriminate.
  - intros Hne. destruct (or_empty_cases v) as [H|H]; [exact H|contradiction].
Qed.

Lemma generate_extracted (E : node_env) (up : string) (status : nat) (data : jsval)
  (raw : string) (h c j : jvalue) (st : fs) :
  response_ok status = true ->
  content_of E data = inr raw ->
  extract raw = Extracted h c j ->
  generateWebsiteWithDeepSeek E up (FetchResponse status (BodyJson data)) st
  = (GenSuccess success_message h c j, snd (materialize E up h c j st)).
Proof.
  intros Hok Hc Hx. unfold generateWebsiteWithDeepSeek. rewrite Hok, Hc. simpl.
  rewrite Hx. destruct (materialize E up h c j st). reflexivity.
Qed.

Lemma artifact_paths_distinct (up : string) :
  projectPath up ++ "/index.html" <> projectPath up ++ "/style.css"
  /\ projectPath up ++ "/index.html" <> projectPath up ++ "/script.js"
  /\ projectPath up ++ "/style.css" <> projectPath up ++ "/script.js".
Proof.
  repeat split; intros H; apply append_cancel_l in H; discriminate.
Qed.

(** C2 (amended): in scenario A (description "a red button page", theme
    "minimal", a reply whose fenced block is the object with html
    "<h1>Hi</h1>", css "h1{color:red}" and js ""), the folder is the slug of
    the whole composed instruction, not of the description; in it the server
    writes index.html holding "<h1>Hi</h1>" and style.css holding
    "h1{color:red}", writes no script.js, and returns the success result with
    the three values; this holds whether [generated_websites/] exists or not. *)
Theorem scenarioA_run :
  folderName scenarioA_up = scenarioA_folder
  /\ projectPath scenarioA_up = "./generated_websites/" ++ scenarioA_folder
  /\ (forall st, st = fs_base \/ st = fs_fresh ->
      fst (scenarioA_handle node0 st)
      = Respond 200 (GenSuccess success_message (JStr "<h1>Hi</h1>") (JStr "h1{color:red}")
                                (JStr EmptyString))
      /\ file_at (snd (scenarioA_handle node0 st)) (projectPath scenarioA_up ++ "/index.html")
         = Some "<h1>Hi</h1>"
      /\ file_at (snd (scenarioA_handle node0 st)) (projectPath scenarioA_up ++ "/style.css")
         = Some "h1{color:red}"
      /\ file_at (snd (scenarioA_handle node0 st)) (projectPath scenarioA_up ++ "/script.js")
         = None).
Proof.
  split; [vm_compute; reflexivity|].
  split; [vm_compute; reflexivity|].
  intros st [-> | ->]; vm_compute; repeat split.
Qed.

Lemma scenarioA_run_witness :
  fst (scenarioA_handle node0 fs_fresh)
  = Respond 200 (GenSuccess success_message (JStr "<h1>Hi</h1>") (JStr "h1{color:red}")
                            (JStr EmptyString)).
Proof.
  exact (proj1 (proj2 (proj2 scenarioA_run) fs_fresh (or_intror eq_refl))).
Defined.

(** The run the spec describes writes nothing under
    [generated_websites/a-red-button-page]. *)
Lemma scenarioA_folder_cex :
  folderName scenarioA_up <> "a-red-button-page"
  /\ file_at (snd (scenarioA_handle node0 fs_base))
       "./generated_websites/a-red-button-page/index.html" = None.
Proof.
  split; [vm_compute; discriminate|vm_compute; reflexivity].
Qed.

(** C4 (amended): the result of the [mkdir] command is collected but never
    inspected: whatever it is (a failure included), the index.html and
    style.css writes follow it, and when the reply's artifacts were extracted
    the generator returns the success result.  The index.html write creates
    the missing directories of the project path itself: when no operation
    fails for a reason outside the state and no directory of that path is a
    file, they all exist afterwards, whatever [mkdir] did. *)
Theorem mkdir_result_ignored (E : node_env) (up : string) (status : nat) (data : jsval)
  (raw : string) (h c j : jvalue) (st st' : fs) rs :
  response_ok status = true ->
  content_of E data = inr raw ->
  extract raw = Extracted h c j ->
  materialize E up h c j st = (rs, st') ->
  generateWebsiteWithDeepSeek E up (FetchResponse status (BodyJson data)) st
  = (GenSuccess success_message h c j, st')
  /\ (exists r0 r1 r2 rest,
       rs = RExec ("mkdir " ++ projectPath up) r0 :: RWrite r1 :: RWrite r2 :: rest
       /\ write_target r1 = projectPath up ++ "/index.html"
       /\ write_target r2 = projectPath up ++ "/style.css")
  /\ ((forall op, fault E op = None) ->
      (forall a, In a (ancestors (projectPath up)) -> has_file st a = false) ->
      forall a, In a (ancestors (projectPath up)) -> In a (dirs st')).
Proof.
  intros Hok Hc Hx Hm. split; [|split].
  - rewrite (generate_extracted E up status data raw h c j st Hok Hc Hx), Hm. reflexivity.
  - destruct (materialize_steps _ _ _ _ _ _ _ _ Hm)
      as (r0 & st0 & r1 & st1 & r2 & st2 & H0 & H1 & H2 & H3).
    destruct (writeFileContent_frame _ _ _ _ _ _ H1) as (T1 & _).
    destruct (writeFileContent_frame _ _ _ _ _ _ H2) as (T2 & _).
    exists r0, r1, r2.
    destruct (truthy j).
    + destruct H3 as (r3 & _ & ->). exists [RWrite r3]. auto.
    + destruct H3 as (_ & ->). exists []. auto.
  - intros Hf Ha a Hin.
    destruct (materialize_steps _ _ _ _ _ _ _ _ Hm)
      as (r0 & st0 & r1 & st1 & r2 & st2 & H0 & H1 & H2 & H3).
    destruct (executeCommand_mkdir_frame _ _ _ _ _ (plain_word_projectPath up) H0) as [F0 _].
    assert (Pi : parent_dir (projectPath up ++ "/index.html") = projectPath up)
      by exact (parent_dir_in_project up "index.html" (fun _ => eq_refl)).
    assert (Ne : parent_dir (projectPath up ++ "/index.html") <> EmptyString)
      by (rewrite Pi; unfold projectPath; discriminate).
    assert (Ha0 : forall b, In b (ancestors (parent_dir (projectPath up ++ "/index.html"))) ->
                            has_file st0 b = false).
    { rewrite Pi. intros b Hb. unfold has_file. rewrite (file_at_files st st0 b F0).
      exact (Ha b Hb). }
    assert (D1 : In a (dirs st1)).
    { apply (writeFileContent_parents E _ h st0 st1 r1 (Hf _) Ne Ha0 H1). rewrite Pi. exact Hin. }
    apply (writeFileContent_dirs_mono E _ _ _ _ _ H2) in D1.
    destruct (truthy j).
    + destruct H3 as (r3 & H3 & _). exact (writeFileContent_dirs_mono E _ _ _ _ _ H3 a D1).
    + destruct H3 as (-> & _). exact D1.
Qed.

Lemma mkdir_result_ignored_witness :
  let up := scenarioA_up in
  let h := JStr "<h1>Hi</h1>" in
  let c := JStr "h1{color:red}" in
  let j := JStr EmptyString in
  generateWebsiteWithDeepSeek node0 up (reply_with scenarioA_raw) fs_fresh
  = (GenSuccess success_message h c j, snd (materialize node0 up h c j fs_fresh)).
Proof.
  intros up h c j.
  refine (proj1 (mkdir_result_ignored node0 up 200 (reply_data scenarioA_raw) scenarioA_raw h c j fs_fresh
                  (snd (materialize node0 up h c j fs_fresh))
                  (fst (materialize node0 up h c j fs_fresh))
                  _ _ _ _)); vm_compute; reflexivity.
Defined.

(** On a fresh checkout [generated_websites/] does not exist, so the shell
    [mkdir] fails; the two writes still create the files and the request
    succeeds. *)
Lemma mkdir_failure_cex :
  (exists m rest,
     fst (materialize node0 scenarioA_up (JStr "<h1>Hi</h1>") (JStr "h1{color:red}")
            (JStr EmptyString) fs_fresh)
     = RExec ("mkdir " ++ projectPath scenarioA_up) (CmdError m) :: rest)
  /\ file_at (snd (scenarioA_handle node0 fs_fresh)) (projectPath scenarioA_up ++ "/index.html")
     = Some "<h1>Hi</h1>"
  /\ fst (scenarioA_handle node0 fs_fresh)
     = Respond 200 (GenSuccess success_message (JStr "<h1>Hi</h1>") (JStr "h1{color:red}")
                               (JStr EmptyString)).
Proof.
  split; [|split; vm_compute; reflexivity].
  vm_compute. eexists _, _. reflexivity.
Qed.

(** C5 (amended): the writes are independent: when the index.html write
    succeeded, the markup stays in place whatever happens to the later
    writes; the value the stylesheet write returns names only the
    stylesheet path; the script write is still attempted when the script is
    non-empty; and the generator returns the success result, so a failed
    write is not reported to the client. *)
Theorem write_failure_not_reported (E : node_env) (up : string) (status : nat) (data : jsval)
  (raw : string) (h c j : jvalue) (st st' : fs) rs :
  response_ok status = true ->
  content_of E data = inr raw ->
  extract raw = Extracted h c j ->
  materialize E up h c j st = (rs, st') ->
  generateWebsiteWithDeepSeek E up (FetchResponse status (BodyJson data)) st
  = (GenSuccess success_message h c j, st')
  /\ exists r0 r1 r2 rest,
       rs = RExec ("mkdir " ++ projectPath up) r0 :: RWrite r1 :: RWrite r2 :: rest
       /\ (r1 = WrittenOk (projectPath up ++ "/index.html") ->
           exists data', data_of E h = Some data'
                         /\ file_at st' (projectPath up ++ "/index.html") = Some data')
       /\ (forall p m, r2 = WriteError p m -> p = projectPath up ++ "/style.css")
       /\ (truthy j = true ->
           exists r3, rest = [RWrite r3] /\ write_target r3 = projectPath up ++ "/script.js").
Proof.
  intros Hok Hc Hx Hm. split.
  - rewrite (generate_extracted E up status data raw h c j st Hok Hc Hx), Hm. reflexivity.
  - destruct (materialize_steps _ _ _ _ _ _ _ _ Hm)
      as (r0 & st0 & r1 & st1 & r2 & st2 & H0 & H1 & H2 & H3).
    destruct (writeFileContent_frame _ _ _ _ _ _ H1) as (T1 & _ & _ & W1).
    destruct (writeFileContent_frame _ _ _ _ _ _ H2) as (T2 & F2 & _).
    destruct (artifact_paths_distinct up) as (D12 & D13 & _).
    exists r0, r1, r2.
    assert (Keep : forall st'', (forall x, x <> projectPath up ++ "/style.css" ->
                                  x <> projectPath up ++ "/script.js" ->
                                  file_at st'' x = file_at st1 x) ->
              r1 = WrittenOk (projectPath up ++ "/index.html") ->
              exists data', data_of E h = Some data'
                            /\ file_at st'' (projectPath up ++ "/index.html") = Some data').
    { intros st'' Hfr Hr1. destruct (W1 Hr1) as (d & Hd & Hf).
      exists d. split; [exact Hd|]. rewrite Hfr; auto. }
    assert (Err : forall p m, r2 = WriteError p m -> p = projectPath up ++ "/style.css").
    { intros p m ->. exact T2. }
    destruct (truthy j).
    + destruct H3 as (r3 & H3 & ->).
      destruct (writeFileContent_frame _ _ _ _ _ _ H3) as (T3 & F3 & _).
      exists [RWrite r3]. split; [reflexivity|]. split; [|split; [exact Err|]].
      * apply Keep. intros x Hx2 Hx3. rewrite F3 by exact Hx3. apply F2. exact Hx2.
      * intros _. exists r3. auto.
    + destruct H3 as (-> & ->).
      exists []. split; [reflexivity|]. split; [|split; [exact Err|discriminate]].
      apply Keep. intros x Hx2 _. apply F2. exact Hx2.
Qed.

Lemma write_failure_not_reported_witness :
  let E := node_nospace (projectPath scenarioA_up ++ "/style.css") in
  let up := scenarioA_up in
  let h := JStr "<h1>Hi</h1>" in
  let c := JStr "h1{color:red}" in
  let j := JStr EmptyString in
  generateWebsiteWithDeepSeek E up (reply_with scenarioA_raw) fs_base
  = (GenSuccess success_message h c j, snd (materialize E up h c j fs_base)).
Proof.
  intros E up h c j.
  refine (proj1 (write_failure_not_reported E up 200 (reply_data scenarioA_raw) scenarioA_raw h c j fs_base
                  (snd (materialize E up h c j fs_base))
                  (fst (materialize E up h c j fs_base))
                  _ _ _ _)); vm_compute; reflexivity.
Defined.

(** The stylesheet write fails for lack of space: the markup is on disk, the
    stylesheet is not, the failed write's value names the stylesheet path,
    and the request still reports success. *)
Lemma write_failure_cex :
  let E := node_nospace (projectPath scenarioA_up ++ "/style.css") in
  nth_error (fst (materialize E scenarioA_up (JStr "<h1>Hi</h1>") (JStr "h1{color:red}")
                    (JStr EmptyString) fs_base)) 2
  = Some (RWrite (WriteError (projectPath scenarioA_up ++ "/style.css")
                             "ENOSPC: no space left on device, write"))
  /\ file_at (snd (scenarioA_handle E fs_base)) (projectPath scenarioA_up ++ "/index.html")
     = Some "<h1>Hi</h1>"
  /\ file_at (snd (scenarioA_handle E fs_base)) (projectPath scenarioA_up ++ "/style.css")
     = None
  /\ fst (scenarioA_handle E fs_base)
     = Respond 200 (GenSuccess success_message (JStr "<h1>Hi</h1>") (JStr "h1{color:red}")
                               (JStr EmptyString)).
Proof. vm_compute. repeat split. Qed.

(** C8: for extracted artifacts, the script write is attempted exactly when
    the script is not the empty string (an extracted value is either truthy
    or the empty string); the index.html and style.css writes are attempted
    in every case; and a script write that succeeds leaves the script's text
    in [script.js]. *)
Theorem script_written_iff_nonempty (E : node_env) (raw up : string) (h c j : jvalue)
  (st st' : fs) rs :
  extract raw = Extracted h c j ->
  materialize E up h c j st = (rs, st') ->
  ((exists r, In (RWrite r) rs /\ write_target r = projectPath up ++ "/script.js")
   <-> j <> JStr EmptyString)
  /\ (exists r, In (RWrite r) rs /\ write_target r = projectPath up ++ "/index.html")
  /\ (exists r, In (RWrite r) rs /\ write_target r = projectPath up ++ "/style.css")
  /\ (In (RWrite (WrittenOk (projectPath up ++ "/script.js"))) rs ->
      exists data, data_of E j = Some data
                   /\ file_at st' (projectPath up ++ "/script.js") = Some data).
Proof.
  intros Hx Hm.
  destruct (extract_or_empty raw h c j Hx) as (vh & vc & vj & _ & _ & Hj).
  destruct (materialize_steps _ _ _ _ _ _ _ _ Hm)
    as (r0 & st0 & r1 & st1 & r2 & st2 & H0 & H1 & H2 & H3).
  destruct (writeFileContent_frame _ _ _ _ _ _ H1) as (T1 & _).
  destruct (writeFileContent_frame _ _ _ _ _ _ H2) as (T2 & _).
  destruct (artifact_paths_distinct up) as (D12 & D13 & D23).
  pose proof (truthy_extracted vj) as Tj. rewrite <- Hj in Tj.
  destruct (truthy j) eqn:Ht.
  - destruct H3 as (r3 & H3 & ->).
    destruct (writeFileContent_frame _ _ _ _ _ _ H3) as (T3 & _ & _ & W3).
    split; [|split; [|split]].
    + split; [intros _; apply Tj; reflexivity|].
      intros _. exists r3. split; [right; right; right; left; reflexivity|exact T3].
    + exists r1. split; [right; left; reflexivity|exact T1].
    + exists r2. split; [right; right; left; reflexivity|exact T2].
    + intros Hin. cbn [In] in Hin.
      destruct Hin as [Hin|[Hin|[Hin|[Hin|[]]]]]; try discriminate.
      * injection Hin as ->. cbn [write_target] in T1. exfalso; apply D13; symmetry; exact T1.
      * injection Hin as ->. cbn [write_target] in T2. exfalso; apply D23; symmetry; exact T2.
      * injection Hin as ->. apply W3. reflexivity.
  - destruct H3 as (-> & ->).
    split; [|split; [|split]].
    + split.
      * intros (r & Hin & Ht').
        cbn [In] in Hin. destruct Hin as [Hin|[Hin|[Hin|[]]]]; try discriminate.
        -- injection Hin as ->. rewrite T1 in Ht'. contradiction.
        -- injection Hin as ->. rewrite T2 in Ht'. contradiction.
      * intros Hne. apply Tj in Hne. discriminate.
    + exists r1. split; [right; left; reflexivity|exact T1].
    + exists r2. split; [right; right; left; reflexivity|exact T2].
    + intros Hin. cbn [In] in Hin.
      destruct Hin as [Hin|[Hin|[Hin|[]]]]; try discriminate.
      * injection Hin as ->. cbn [write_target] in T1. exfalso; apply D13; symmetry; exact T1.
      * injection Hin as ->. cbn [write_target] in T2. exfalso; apply D23; symmetry; exact T2.
Qed.

Lemma script_written_iff_nonempty_witness :
  let h := JStr "<h1>Hi</h1>" in
  let c := JStr "h1{color:red}" in
  let j := JStr EmptyString in
  ~ (exists r, In (RWrite r) (fst (materialize node0 scenarioA_up h c j fs_base))
               /\ write_target r = projectPath scenarioA_up ++ "/script.js").
Proof.
  intros h c j Hw.
  refine (proj1 (proj1 (script_written_iff_nonempty node0 scenarioA_raw scenarioA_up h c j
                          fs_base (snd (materialize node0 scenarioA_up h c j fs_base))
                          (fst (materialize node0 scenarioA_up h c j fs_base)) _ _)) Hw _);
    vm_compute; reflexivity.
Defined.

(** C9: when the provider answers with a success status and a body whose
    [choices[0].message.content] is a reply from which the artifacts are
    extracted, the generator returns the success result carrying the three
    extracted values, whatever the file operations did, and the handler sends
    it with status 200 for any non-empty prompt. *)
Theorem success_result_carries_artifacts (E : node_env) (status : nat) (data : jsval)
  (raw : string) (h c j : jvalue) (st : fs) :
  response_ok status = true ->
  content_of E data = inr raw ->
  extract raw = Extracted h c j ->
  (forall up, fst (generateWebsiteWithDeepSeek E up (FetchResponse status (BodyJson data)) st)
              = GenSuccess success_message h c j)
  /\ (forall p theme, p <> EmptyString ->
      fst (handle E (Some p) theme (FetchResponse status (BodyJson data)) st)
      = Respond 200 (GenSuccess success_message h c j)).
Proof.
  intros Hok Hc Hx.
  assert (G : forall up, generateWebsiteWithDeepSeek E up (FetchResponse status (BodyJson data)) st
                         = (GenSuccess success_message h c j, snd (materialize E up h c j st)))
    by (intros up; exact (generate_extracted E up status data raw h c j st Hok Hc Hx)).
  split.
  - intros up. rewrite G. reflexivity.
  - intros p theme Hp. unfold handle.
    destruct (String.eqb p EmptyString) eqn:He; [apply String.eqb_eq in He; contradiction|].
    rewrite G. reflexivity.
Qed.

Lemma success_result_carries_artifacts_witness :
  fst (handle node0 (Some "a red button page") (Some "minimal") (reply_with scenarioA_raw) fs_base)
  = Respond 200 (GenSuccess success_message (JStr "<h1>Hi</h1>") (JStr "h1{color:red}")
                            (JStr EmptyString)).
Proof.
  refine (proj2 (success_result_carries_artifacts node0 200 (reply_data scenarioA_raw)
                   scenarioA_raw (JStr "<h1>Hi</h1>") (JStr "h1{color:red}") (JStr EmptyString)
                   fs_base _ _ _) "a red button page" (Some "minimal") _);
    [vm_compute; reflexivity | vm_compute; reflexivity | vm_compute; reflexivity | discriminate].
Defined.

(** C7: a provider reply with a non-success status and a body that is not
    JSON (a gateway's "Bad Gateway" page, status 502): [response.json()]
    throws before the status is looked at, so the error the client gets
    carries the JSON syntax message only, with neither the provider marker
    nor the status code; nothing is written.  With a JSON error body the
    message does carry both. *)
Theorem gateway_error_loses_status (E : node_env) (up : string) (st : fs) (errorData : jsval) :
  generateWebsiteWithDeepSeek E up
    (FetchResponse 502 (BodyNotJson "Unexpected token B in JSON at position 0")) st
  = (GenError "Error during AI generation: Unexpected token B in JSON at position 0", st)
  /\ generateWebsiteWithDeepSeek E up (FetchResponse 502 (BodyJson errorData)) st
     = (GenError ("Error during AI generation: DeepSeek API error (502): "
                  ++ json_stringify E errorData), st).
Proof. split; reflexivity. Qed.

Lemma extract_object_block_witness :
  let fields := [(units "html", VStr (units "<h1>Hi</h1>"));
                 (units "css", VStr (units "h1{color:red}")); (units "js", VStr [])] in
  exists h c j, extract scenarioA_raw = Extracted h c j
    /\ artifact_of fields "html" h /\ artifact_of fields "css" c /\ artifact_of fields "js" j.
Proof.
  intros fields.
  apply (extract_object_block scenarioA_raw scenarioA_block).
  - vm_compute. reflexivity.
  - discriminate.
  - vm_compute. reflexivity.
Defined.

(** A reply whose single fenced block holds [{"html":null}]: the block is
    well-formed JSON and [html] is present with value null, yet the markup
    extracted is the empty string, not that value. *)
Lemma extract_null_cex :
  let block := "{" ++ qk "html" ++ ":null}" in
  find_block (fenced block) = Some block
  /\ JSON_parse block = Some (VObj [(units "html", VNull)])
  /\ extract (fenced block) = Extracted (VStr []) (VStr []) (VStr []).
Proof. vm_compute. repeat split. Qed.

Lemma extract_failures_witness :
  extract (fenced EmptyString) = BlockNotFound
  /\ generateWebsiteWithDeepSeek node0 scenarioA_up (reply_with (fenced EmptyString)) fs_base
     = (GenError ("AI response format error: JSON block not found in model's output. Raw content: "
                  ++ substring0 200 (fenced EmptyString) ++ "..."), fs_base).
Proof.
  refine (proj1 (proj2 (proj2 (extract_failures node0 scenarioA_up (fenced EmptyString)
                                 (reply_data (fenced EmptyString)) 200 fs_base _ _))) _).
  - vm_compute. reflexivity.
  - vm_compute. reflexivity.
  - right. vm_compute. reflexivity.
Defined.

(** An empty fenced block is a fenced block that is not valid JSON, yet it
    is reported as a missing block, not as a parse error. *)
Lemma empty_block_cex :
  find_block (fenced EmptyString) = Some EmptyString
  /\ JSON_parse EmptyString = None
  /\ extract (fenced EmptyString) = BlockNotFound
  /\ fst (generateWebsiteWithDeepSeek node0 scenarioA_up (reply_with (fenced EmptyString)) fs_base)
     = GenError (not_found_message (fenced EmptyString)).
Proof. vm_compute. repeat split. Qed.

Lemma handle_confined_witness :
  confined_to (folderName scenarioA_up) fs_base (snd (scenarioA_handle node0 fs_base)).
Proof.
  refine (proj1 (proj2 (proj2 (proj2
            (handle_confined node0 (Some "a red button page") (Some "minimal")
               (reply_with scenarioA_raw) fs_base
               (snd (scenarioA_handle node0 fs_base)) (fst (scenarioA_handle node0 fs_base))
               _ _))))).
  - vm_compute. left. reflexivity.
  - vm_compute. reflexivity.
Defined.

(** * Further properties of the code *)

(** ** The folder name *)

Lemma lower_char_idem (c : ascii) : lower_char (lower_char c) = lower_char c.
Proof. destruct c as [[] [] [] [] [] [] [] []]; reflexivity. Qed.

Lemma lower_char_ascii_alnum (c : ascii) : is_lower_alnum (lower_char c) = is_ascii_alnum c.
Proof. destruct c as [[] [] [] [] [] [] [] []]; reflexivity. Qed.

Lemma toLowerCase_app (a b : string) : toLowerCase (a ++ b) = toLowerCase a ++ toLowerCase b.
Proof. induction a as [|c a IH]; simpl; [reflexivity|now rewrite IH]. Qed.

Lemma toLowerCase_idem (s : string) : toLowerCase (toLowerCase s) = toLowerCase s.
Proof. induction s as [|c s IH]; simpl; [reflexivity|now rewrite lower_char_idem, IH]. Qed.

Lemma str_app_assoc (a b c : string) : a ++ (b ++ c) = (a ++ b) ++ c.
Proof. induction a as [|x a IH]; simpl; [reflexivity|now rewrite IH]. Qed.

Lemma str_app_nil_r (a : string) : a ++ EmptyString = a.
Proof. induction a as [|x a IH]; simpl; [reflexivity|now rewrite IH]. Qed.

Lemma replace_runs_app (b : bool) (u v : string) :
  replace_runs b (u ++ v) = replace_runs b u ++ replace_runs (run_state b u) v.
Proof.
  revert b. induction u as [|c u IH]; intros b; simpl; [reflexivity|].
  destruct (is_lower_alnum c); simpl; [now rewrite IH|].
  destruct b; simpl; now rewrite IH.
Qed.

Lemma replace_runs_sep (b : bool) (s y : string) :
  s <> EmptyString -> no_lower_alnum s = true ->
  replace_runs b (s ++ y) = (if b then EmptyString else "-") ++ replace_runs true y.
Proof.
  revert b. induction s as [|c s IH]; intros b Hne Hs; [contradiction|].
  simpl in Hs. apply andb_prop in Hs as [Hc Hs]. apply negb_true_iff in Hc.
  simpl. rewrite Hc.
  destruct s as [|c' s'].
  - destruct b; reflexivity.
  - rewrite (IH true) by (discriminate || exact Hs). destruct b; reflexivity.
Qed.

Lemma toLowerCase_nonempty (s : string) : s <> EmptyString -> toLowerCase s <> EmptyString.
Proof. destruct s; [contradiction|discriminate]. Qed.

Lemma strip_trailing_app (a r : string) :
  strip_trailing_dashes r <> EmptyString ->
  strip_trailing_dashes (a ++ r) = a ++ strip_trailing_dashes r.
Proof.
  intros Hr. induction a as [|c a IH]; simpl; [reflexivity|].
  rewrite IH. destruct (Ascii.eqb c "-"); simpl; [|reflexivity].
  destruct (a ++ strip_trailing_dashes r) eqn:He; [|reflexivity].
  destruct a; simpl in He; [contradiction|discriminate].
Qed.

Lemma replace_runs_count (b : bool) (s : string) :
  count_lower_alnum s <= String.length (replace_runs b s).
Proof.
  revert b. induction s as [|c s IH]; intros b; simpl; [lia|].
  destruct (is_lower_alnum c); simpl; [specialize (IH false); lia|].
  destruct b; simpl; [apply IH|specialize (IH true); lia].
Qed.

Lemma count_lower_alnum_app (a b : string) :
  count_lower_alnum (a ++ b) = count_lower_alnum a + count_lower_alnum b.
Proof. induction a as [|c a IH]; simpl; [reflexivity|rewrite IH; lia]. Qed.

Lemma count_lower_toLowerCase (s : string) :
  count_lower_alnum (toLowerCase s) = count_ascii_alnum s.
Proof.
  induction s as [|c s IH]; simpl; [reflexivity|]. now rewrite lower_char_ascii_alnum, IH.
Qed.

Lemma length_app (a b : string) : String.length (a ++ b) = String.length a + String.length b.
Proof. induction a as [|c a IH]; simpl; [reflexivity|now rewrite IH]. Qed.

Lemma folderName_lower_compose (prompt theme : string) :
  folderName (compose_userProblem (toLowerCase prompt) (toLowerCase theme))
  = folderName (compose_userProblem prompt theme).
Proof.
  unfold folderName, compose_userProblem. rewrite !toLowerCase_app.
  rewrite (toLowerCase_idem prompt). rewrite (toLowerCase_idem theme). reflexivity.
Qed.

(** X1: two requests whose descriptions and themes differ only in letter
    case get the same folder (and so overwrite each other's files). *)
Theorem folderName_case_insensitive (prompt theme : string) :
  folderName (compose_userProblem (toLowerCase prompt) (toLowerCase theme))
  = folderName (compose_userProblem prompt theme)
  /\ projectPath (compose_userProblem (toLowerCase prompt) (toLowerCase theme))
     = projectPath (compose_userProblem prompt theme).
Proof.
  split; [apply folderName_lower_compose|].
  unfold projectPath. rewrite folderName_lower_compose. reflexivity.
Qed.

(** X2: the folder name does not depend on which separators stand between
    two parts of the text: replacing one non-empty run of characters that
    are not letters or digits by another gives the same folder. *)
Theorem folderName_separator_runs (x y sep1 sep2 : string) :
  sep1 <> EmptyString -> sep2 <> EmptyString ->
  no_lower_alnum (toLowerCase sep1) = true -> no_lower_alnum (toLowerCase sep2) = true ->
  folderName (x ++ sep1 ++ y) = folderName (x ++ sep2 ++ y).
Proof.
  intros N1 N2 S1 S2. unfold folderName.
  rewrite !toLowerCase_app.
  rewrite (replace_runs_app false (toLowerCase x) (toLowerCase sep1 ++ toLowerCase y)).
  rewrite (replace_runs_app false (toLowerCase x) (toLowerCase sep2 ++ toLowerCase y)).
  rewrite (replace_runs_sep _ _ _ (toLowerCase_nonempty _ N1) S1).
  rewrite (replace_runs_sep _ _ _ (toLowerCase_nonempty _ N2) S2).
  reflexivity.
Qed.

Lemma folderName_separator_runs_witness :
  folderName ("a red" ++ " " ++ "button") = folderName ("a red" ++ " -- " ++ "button").
Proof.
  apply folderName_separator_runs; [discriminate|discriminate|reflexivity|reflexivity].
Defined.

Lemma run_state_nonempty_sep (b : bool) (s : string) :
  s <> EmptyString -> no_lower_alnum s = true -> run_state b s = true.
Proof.
  revert b. induction s as [|c s IH]; intros b Hne Hs; [contradiction|].
  simpl in Hs |- *. apply andb_prop in Hs as [Hc Hs]. apply negb_true_iff in Hc. rewrite Hc.
  destruct s; [reflexivity|apply IH; [discriminate|exact Hs]].
Qed.

(** X3: every folder the route creates is the slug of its fixed instruction
    template: "create-a-website-for-the-following-description-", then the
    slug of the description and the theme, then
    "theme-ensure-all-...-structured-json-response".  It is never the
    fallback name, and its length is at least 156 plus the number of ASCII
    letters and digits of the description and the theme (so a description
    with 100 of them already gives a name longer than 255 characters). *)
Theorem folderName_template_shape (prompt theme : string) :
  (exists m, folderName (compose_userProblem prompt theme) = template_head ++ m ++ template_tail
             /\ 4 + count_ascii_alnum prompt + count_ascii_alnum theme <= String.length m)
  /\ 156 + count_ascii_alnum prompt + count_ascii_alnum theme
     <= String.length (folderName (compose_userProblem prompt theme)).
Proof.
  set (tq := toLowerCase q).
  set (mid := tq ++ toLowerCase prompt ++ tq ++ toLowerCase ". Use a " ++ tq ++ toLowerCase theme).
  set (tail := tq ++ toLowerCase
    " theme. Ensure all necessary HTML, CSS, and JavaScript code is provided in the final structured JSON response.").
  set (TL1 := toLowerCase "Create a website for the following description: ").
  assert (E1 : toLowerCase (compose_userProblem prompt theme) = TL1 ++ (mid ++ tail)).
  { unfold compose_userProblem. rewrite !toLowerCase_app.
    unfold TL1, mid, tail. rewrite <- !str_app_assoc. reflexivity. }
  assert (Cm : 4 + count_ascii_alnum prompt + count_ascii_alnum theme
               <= String.length (replace_runs true mid)).
  { eapply Nat.le_trans; [|apply replace_runs_count].
    unfold mid. rewrite !count_lower_alnum_app, !count_lower_toLowerCase.
    vm_compute (count_lower_alnum tq). vm_compute (count_ascii_alnum ". Use a "). lia. }
  assert (Hm : exists m, folderName (compose_userProblem prompt theme)
                         = template_head ++ m ++ template_tail
                         /\ String.length (replace_runs true mid) <= String.length m).
  { unfold folderName. rewrite E1.
    rewrite (replace_runs_app false TL1 (mid ++ tail)).
    rewrite (replace_runs_app (run_state false TL1) mid tail).
    replace (run_state false TL1) with true by (vm_compute; reflexivity).
    replace (replace_runs false TL1) with template_head by (vm_compute; reflexivity).
    set (R := replace_runs true mid).
    destruct (run_state true mid).
    - replace (replace_runs true tail) with (template_tail ++ "-") by (vm_compute; reflexivity).
      assert (T : trim_dashes (template_head ++ R ++ template_tail ++ "-")
                  = template_head ++ R ++ template_tail).
      { unfold trim_dashes.
        change (strip_leading_dashes (template_head ++ R ++ template_tail ++ "-"))
          with (template_head ++ R ++ template_tail ++ "-").
        rewrite (strip_trailing_app template_head); [rewrite (strip_trailing_app R)|];
          (replace (strip_trailing_dashes (template_tail ++ "-")) with template_tail
             by (vm_compute; reflexivity)); [reflexivity|discriminate|].
        rewrite (strip_trailing_app R) by discriminate.
        destruct R; discriminate. }
      rewrite T. exists R. split; [|lia].
      destruct (String.eqb _ _) eqn:He; [|reflexivity].
      apply String.eqb_eq in He. destruct template_head eqn:Ht; discriminate.
    - replace (replace_runs false tail) with ("-" ++ template_tail ++ "-")
        by (vm_compute; reflexivity).
      assert (T : trim_dashes (template_head ++ R ++ "-" ++ template_tail ++ "-")
                  = template_head ++ (R ++ "-") ++ template_tail).
      { unfold trim_dashes.
        change (strip_leading_dashes (template_head ++ R ++ "-" ++ template_tail ++ "-"))
          with (template_head ++ R ++ "-" ++ template_tail ++ "-").
        rewrite <- (str_app_assoc R "-").
        assert (Ht : strip_trailing_dashes ("-" ++ template_tail ++ "-") = "-" ++ template_tail)
          by (vm_compute; reflexivity).
        rewrite (strip_trailing_app template_head), (strip_trailing_app R), Ht;
          [reflexivity|rewrite Ht; discriminate|].
        rewrite (strip_trailing_app R), Ht by (rewrite Ht; discriminate).
        destruct R; discriminate. }
      rewrite T. exists (R ++ "-"). split; [|rewrite length_app; lia].
      destruct (String.eqb _ _) eqn:He; [|reflexivity].
      apply String.eqb_eq in He. destruct template_head eqn:Ht; discriminate. }
  destruct Hm as (m & Hf & Hl).
  split; [exists m; split; [exact Hf|lia]|].
  rewrite Hf, !length_app.
  replace (String.length template_head) with 47 by reflexivity.
  replace (String.length template_tail) with 105 by reflexivity. lia.
Qed.

(** ** Locating and reading the block *)

Lemma prefix_cons (a b : ascii) (m s : string) :
  prefix (String a m) (String b s) = Ascii.eqb a b && prefix m s.
Proof.
  simpl. destruct (ascii_dec a b) as [<-|Hn].
  - now rewrite Ascii.eqb_refl.
  - apply Ascii.eqb_neq in Hn. now rewrite Hn.
Qed.

Lemma prefix_close_overlap (x : ascii) (c post : string) :
  prefix close_marker (String x c) = false ->
  prefix close_marker (String x (c ++ close_marker ++ post)) = false.
Proof.
  intros H.
  change close_marker
    with (String (ascii_of_nat 10) (String "`" (String "`" (String "`" EmptyString)))) in *.
  destruct c as [|a1 [|a2 [|a3 r]]]; cbn [append] in *; rewrite !prefix_cons in *;
    repeat match goal with
           | |- context [Ascii.eqb ?a ?b] => is_var b; destruct (Ascii.eqb a b)
           end; simpl in *; first [reflexivity | exact H | destruct r; discriminate H].
Qed.

Lemma find_close_eq (s : string) :
  find_close s = if prefix close_marker s then Some EmptyString
                 else match s with
                      | EmptyString => None
                      | String c s' => option_map (String c) (find_close s')
                      end.
Proof. destruct s; reflexivity. Qed.

Lemma find_close_fenced (c post : string) :
  occurs close_marker c = false ->
  find_close (c ++ close_marker ++ post) = Some c.
Proof.
  induction c as [|x c IH]; intros H.
  - change (EmptyString ++ close_marker ++ post) with (close_marker ++ post).
    rewrite find_close_eq, prefix_app_self. reflexivity.
  - simpl in H. apply orb_false_iff in H as [H1 H2].
    change (String x c ++ close_marker ++ post) with (String x (c ++ close_marker ++ post)).
    rewrite find_close_eq, prefix_close_overlap by exact H1. rewrite IH by exact H2. reflexivity.
Qed.

Lemma drop_app_length (a b : string) : drop (String.length a) (a ++ b) = b.
Proof. induction a as [|c a IH]; simpl; [destruct b; reflexivity|exact IH]. Qed.

Lemma find_block_eq (s : string) :
  find_block s = match (if prefix open_marker s then find_close (drop 8 s) else None) with
                 | Some content => Some content
                 | None => match s with
                           | EmptyString => None
                           | String _ s' => find_block s'
                           end
                 end.
Proof. destruct s; reflexivity. Qed.

Lemma find_block_skip (pre s : string) :
  no_backtick pre = true -> find_block (pre ++ s) = find_block s.
Proof.
  induction pre as [|x pre IH]; intros H; [reflexivity|].
  simpl in H. apply andb_prop in H as [Hx H].
  change (String x pre ++ s) with (String x (pre ++ s)).
  rewrite find_block_eq, <- (IH H).
  assert (Hp : prefix open_marker (String x (pre ++ s)) = false).
  { unfold open_marker. cbn [append]. rewrite prefix_cons.
    apply negb_true_iff in Hx. rewrite Ascii.eqb_sym, Hx. reflexivity. }
  rewrite Hp. reflexivity.
Qed.

(** X4: a reply that starts with prose holding no backtick, then a fenced
    block whose content holds no newline followed by three backticks, then
    anything: the block's content is exactly the text between the markers,
    and the prose before and everything after (further blocks included)
    make no difference to the extraction. *)
Theorem find_block_after_prose (pre c post : string) :
  no_backtick pre = true ->
  occurs close_marker c = false ->
  find_block (pre ++ fenced c ++ post) = Some c
  /\ extract (pre ++ fenced c ++ post) = extract (fenced c).
Proof.
  intros Hp Hc.
  assert (Hf : forall post', find_block (fenced c ++ post') = Some c).
  { intros post'. unfold fenced. rewrite <- !str_app_assoc.
    rewrite find_block_eq, prefix_app_self.
    replace 8 with (String.length open_marker) by reflexivity.
    rewrite drop_app_length, find_close_fenced by exact Hc. reflexivity. }
  assert (H1 : find_block (pre ++ fenced c ++ post) = Some c)
    by (rewrite find_block_skip by exact Hp; apply Hf).
  split; [exact H1|].
  assert (H2 : find_block (fenced c) = Some c)
    by (rewrite <- (str_app_nil_r (fenced c)); apply Hf).
  unfold extract. rewrite H1, H2. reflexivity.
Qed.

Lemma find_block_after_prose_witness :
  find_block ("Here is your site:" ++ nl ++ scenarioA_raw ++ nl ++ "Enjoy!") = Some scenarioA_block.
Proof.
  exact (proj1 (find_block_after_prose ("Here is your site:" ++ nl) scenarioA_block
                  (nl ++ "Enjoy!") eq_refl eq_refl)).
Defined.

(** X5: a non-empty block whose JSON is a number, a string, a boolean or an
    array is accepted: reading [html], [css] and [js] from it gives
    [undefined], so the three artifacts are empty strings; a block holding
    [null] fails as a parse error (the TypeError of [null.html]). *)
Theorem extract_non_object_block (raw block : string) (v : jvalue) :
  find_block raw = Some block -> block <> EmptyString -> JSON_parse block = Some v ->
  (v = VNull -> extract raw = ParseError)
  /\ (non_object_value v = true -> extract raw = Extracted (VStr []) (VStr []) (VStr [])).
Proof.
  intros Hf Hne Hp. unfold extract. rewrite Hf.
  destruct (String.eqb block EmptyString) eqn:He; [apply String.eqb_eq in He; contradiction|].
  rewrite Hp. split.
  - intros ->. reflexivity.
  - destruct v; simpl; try discriminate; intros _; reflexivity.
Qed.

Lemma extract_non_object_block_witness :
  extract (fenced "[1,2]") = Extracted (VStr []) (VStr []) (VStr []).
Proof.
  refine (proj2 (extract_non_object_block (fenced "[1,2]") "[1,2]" (VArr [VNum "1"; VNum "2"])
                   _ _ _) _).
  - vm_compute. reflexivity.
  - discriminate.
  - vm_compute. reflexivity.
  - reflexivity.
Defined.

(** ** The two tools and the file system *)

Lemma slash_positions_bound (s : string) : forall k i,
  In i (slash_positions k s) -> k <= i < k + String.length s.
Proof.
  induction s as [|c s IH]; intros k i H; simpl in H; [contradiction|].
  simpl. destruct (Ascii.eqb c "/").
  - destruct H as [<-|H]; [lia|apply IH in H; lia].
  - apply IH in H. lia.
Qed.

Lemma substring0_length (n : nat) (s : string) :
  String.length (substring 0 n s) = Nat.min n (String.length s).
Proof. exact (proj2 (substring0_excerpt n s)). Qed.

Lemma parent_dir_shorter (p : string) :
  parent_dir p <> EmptyString -> String.length (parent_dir p) < String.length p.
Proof.
  unfold parent_dir. destruct (rev (slash_positions 0 p)) as [|i l] eqn:Hr; [contradiction|].
  intros _. assert (Hi : In i (slash_positions 0 p)).
  { apply in_rev. rewrite Hr. left. reflexivity. }
  apply slash_positions_bound in Hi. rewrite substring0_length. lia.
Qed.

Lemma ancestors_le (d a : string) : In a (ancestors d) -> String.length a <= String.length d.
Proof.
  unfold ancestors. intros H. apply in_app_or in H as [H|[<-|[]]]; [|lia].
  apply filter_In in H as [H _]. apply in_map_iff in H as (i & <- & _).
  rewrite substring0_length. lia.
Qed.

Lemma dirs_above_parent (p : string) :
  parent_dir p <> EmptyString -> dirs_above p = ancestors (parent_dir p).
Proof. intros H. unfold dirs_above. apply String.eqb_neq in H. now rewrite H. Qed.

Lemma writeFileContent_ok (E : node_env) (p : string) (u : list N) (st : fs) :
  fault E (OpMkdirRec (parent_dir p)) = None ->
  fault E (OpWriteFile p) = None ->
  (forall a, In a (dirs_above p) -> has_file st a = false) ->
  ~ In p (dirs st) ->
  exists st', writeFileContent E p (VStr u) st = (WrittenOk p, st')
              /\ file_at st' p = Some (written_text u).
Proof.
  intros Hm Hw Ha Hp. unfold writeFileContent.
  destruct (String.eqb (parent_dir p) EmptyString) eqn:Hd.
  - assert (Hda : dirs_above p = []) by (unfold dirs_above; now rewrite Hd).
    cbn iota. unfold data_of, write_file. rewrite Hw, Hda. cbn [existsb forallb negb].
    destruct (mem p (dirs st)) eqn:He; [apply mem_In in He; contradiction|].
    eexists. split; [reflexivity|].
    rewrite file_at_set_file, String.eqb_refl. reflexivity.
  - apply String.eqb_neq in Hd. rewrite (dirs_above_parent p Hd) in Ha.
    rewrite (mkdir_rec_ok E _ _ Hm Ha).
    destruct (add_dirs_frame (ancestors (parent_dir p)) st) as [F1 D1].
    assert (In1 : forall a, In a (ancestors (parent_dir p)) ->
                  In a (dirs (fold_left (fun acc a => add_dir a acc) (ancestors (parent_dir p)) st)))
      by (intros a Hin; apply fold_add_dirs_in; left; exact Hin).
    revert F1 D1 In1.
    generalize (fold_left (fun acc a => add_dir a acc) (ancestors (parent_dir p)) st).
    intros st1 F1 D1 In1.
    cbn iota. unfold data_of, write_file. rewrite Hw, (dirs_above_parent p Hd).
    destruct (existsb (has_file st1) (ancestors (parent_dir p))) eqn:Hx.
    { apply existsb_exists in Hx as (a & Hin & H).
      unfold has_file in H. rewrite (file_at_files st st1 a F1) in H.
      fold (has_file st a) in H. rewrite (Ha a Hin) in H. discriminate. }
    destruct (forallb (fun a => mem a (dirs st1)) (ancestors (parent_dir p))) eqn:Hy.
    2:{ apply Bool.not_true_iff_false in Hy. exfalso. apply Hy.
        apply forallb_forall. intros a Hin. apply mem_In, In1, Hin. }
    destruct (mem p (dirs st1)) eqn:He.
    { apply mem_In, D1 in He as [He|He]; [contradiction|].
      apply ancestors_le in He. apply parent_dir_shorter in Hd. lia. }
    eexists. split; [reflexivity|].
    rewrite file_at_set_file, String.eqb_refl. reflexivity.
Qed.

(** X7: [writeFileContent] called with a string on a canonical path
    succeeds whenever nothing outside the state fails: no directory above
    the target is a file and the target is not a directory.  It then
    creates the missing directories above the target, the file holds the
    string written (an unpaired surrogate as U+FFFD) and no other file
    changes. *)
Theorem writeFileContent_succeeds (E : node_env) (p : string) (u : list N) (st : fs) :
  canonical_path p = true ->
  fault E (OpMkdirRec (parent_dir p)) = None ->
  fault E (OpWriteFile p) = None ->
  (forall a, In a (dirs_above p) -> has_file st a = false) ->
  ~ In p (dirs st) ->
  fst (writeFileContent E p (VStr u) st) = WrittenOk p
  /\ file_at (snd (writeFileContent E p (VStr u) st)) p = Some (written_text u)
  /\ (forall a, In a (dirs_above p) -> In a (dirs (snd (writeFileContent E p (VStr u) st))))
  /\ (forall x, canonical_path x = true -> x <> p ->
      file_at (snd (writeFileContent E p (VStr u) st)) x = file_at st x).
Proof.
  intros _ Hm Hw Ha Hp.
  destruct (writeFileContent_ok E p u st Hm Hw Ha Hp) as (st' & Heq & Hf).
  rewrite Heq. simpl. split; [reflexivity|]. split; [exact Hf|].
  destruct (writeFileContent_frame E _ _ _ _ _ Heq) as (_ & Fr & _).
  split; [|intros x _; exact (Fr x)].
  unfold dirs_above in *. destruct (String.eqb (parent_dir p) EmptyString) eqn:Hd;
    [intros a []|].
  apply String.eqb_neq in Hd.
  exact (writeFileContent_parents E p _ st st' _ Hm Hd Ha Heq).
Qed.

Lemma writeFileContent_succeeds_witness :
  file_at (snd (writeFileContent node0 "./generated_websites/demo/index.html"
                  (VStr (units "<p>x</p>")) fs_fresh))
          "./generated_websites/demo/index.html" = Some (written_text (units "<p>x</p>")).
Proof.
  refine (proj1 (proj2 (writeFileContent_succeeds node0 "./generated_websites/demo/index.html"
                          (units "<p>x</p>") fs_fresh _ eq_refl eq_refl _ _))).
  - vm_compute. reflexivity.
  - intros a Ha. vm_compute in Ha. destruct Ha as [<-|[<-|[<-|[]]]]; reflexivity.
  - intros [H|[]]. discriminate H.
Defined.

(** ** A run of the generator on any file system *)

Lemma project_files_longer (up x : string) :
  In x (project_files up) -> String.length (projectPath up) < String.length x.
Proof.
  unfold project_files. intros [<-|[<-|[<-|[]]]]; rewrite length_app; simpl; lia.
Qed.

Lemma project_files_parent (up x : string) :
  In x (project_files up) -> parent_dir x = projectPath up.
Proof.
  unfold project_files. intros [<-|[<-|[<-|[]]]].
  - exact (parent_dir_in_project up "index.html" (fun _ => eq_refl)).
  - exact (parent_dir_in_project up "style.css" (fun _ => eq_refl)).
  - exact (parent_dir_in_project up "script.js" (fun _ => eq_refl)).
Qed.

Lemma ready_mkdir (E : node_env) (up : string) (st st' : fs) r :
  executeCommand E ("mkdir " ++ projectPath up) st = (r, st') ->
  (forall a, In a (ancestors (projectPath up)) -> has_file st a = false) ->
  (forall x, In x (project_files up) -> ~ In x (dirs st)) ->
  (forall a, In a (ancestors (projectPath up)) -> has_file st' a = false)
  /\ (forall x, In x (project_files up) -> ~ In x (dirs st')).
Proof.
  intros H Ha Hd.
  destruct (executeCommand_mkdir_frame E _ _ _ _ (plain_word_projectPath up) H) as [F D].
  split.
  - intros a Hin. unfold has_file. rewrite (file_at_files st st' a F). apply Ha. exact Hin.
  - intros x Hx Hin. destruct (D x Hin) as [H'|H']; [exact (Hd x Hx H')|].
    subst x. apply project_files_longer in Hx. lia.
Qed.

Lemma ready_write (E : node_env) (up x : string) (content : jvalue) (st st' : fs) r :
  In x (project_files up) ->
  writeFileContent E x content st = (r, st') ->
  (forall a, In a (ancestors (projectPath up)) -> has_file st a = false) ->
  (forall y, In y (project_files up) -> ~ In y (dirs st)) ->
  (forall a, In a (ancestors (projectPath up)) -> has_file st' a = false)
  /\ (forall y, In y (project_files up) -> ~ In y (dirs st')).
Proof.
  intros Hx H Ha Hd.
  destruct (writeFileContent_frame E _ _ _ _ _ H) as (_ & F & D & _).
  rewrite (project_files_parent up x Hx) in D.
  pose proof (project_files_longer up x Hx) as Lx.
  split.
  - intros a Hin. unfold has_file. rewrite F; [apply Ha; exact Hin|].
    intros ->. apply ancestors_le in Hin. lia.
  - intros y Hy Hin. destruct (D y Hin) as [H'|H']; [exact (Hd y Hy H')|].
    apply ancestors_le in H'. apply project_files_longer in Hy. lia.
Qed.

Lemma N_of_ascii_lt (c : ascii) : (N_of_ascii c < 256)%N.
Proof. destruct c as [[] [] [] [] [] [] [] []]; reflexivity. Qed.

(** A Latin-1 string has no surrogate: a file written with it holds it. *)
Lemma written_text_units (s : string) : written_text (units s) = units s.
Proof.
  induction s as [|c s IH]; [reflexivity|]. simpl.
  pose proof (N_of_ascii_lt c) as Hc.
  assert (H1 : is_high_surrogate (N_of_ascii c) = false).
  { unfold is_high_surrogate. apply andb_false_iff. left. apply N.leb_gt. lia. }
  assert (H2 : is_low_surrogate (N_of_ascii c) = false).
  { unfold is_low_surrogate. apply andb_false_iff. left. apply N.leb_gt. lia. }
  rewrite H1, H2, IH. reflexivity.
Qed.

Lemma write_project_file (E : node_env) (up x : string) (u : list N) (st st' : fs) r :
  (forall op, fault E op = None) ->
  In x (project_files up) ->
  (forall a, In a (ancestors (projectPath up)) -> has_file st a = false) ->
  (forall y, In y (project_files up) -> ~ In y (dirs st)) ->
  writeFileContent E x (VStr u) st = (r, st') ->
  r = WrittenOk x /\ file_at st' x = Some (written_text u).
Proof.
  intros Hf Hx Ha Hd H.
  assert (Hp : parent_dir x = projectPath up) by exact (project_files_parent up x Hx).
  assert (Hda : dirs_above x = ancestors (projectPath up)).
  { rewrite dirs_above_parent, Hp; [reflexivity|]. rewrite Hp. unfold projectPath. discriminate. }
  destruct (writeFileContent_ok E x u st (Hf _) (Hf _)
              (fun a Hin => Ha a (eq_ind _ (fun l => In a l) Hin _ Hda))
              (Hd x Hx)) as (st1 & H1 & F1).
  rewrite H1 in H. injection H as <- <-. auto.
Qed.



(** ** The route's answers *)

Lemma generate_error_shape (E : node_env) (up : string) prov (st st' : fs) (m : string) :
  generateWebsiteWithDeepSeek E up prov st = (GenError m, st') ->
  st' = st
  /\ exists rest, m = "Error during AI generation: " ++ rest
                  \/ m = "AI response format error: " ++ rest.
Proof.
  unfold generateWebsiteWithDeepSeek, generation_error, parse_error_message, not_found_message.
  destruct prov as [e|status b].
  { intros H. injection H as <- <-. split; [reflexivity|]. exists e. left. reflexivity. }
  destruct (negb (response_ok status)).
  - destruct b as [d|e]; intros H; injection H as <- <-; split; try reflexivity.
    + exists ("DeepSeek API error (" ++ dec status ++ "): " ++ json_stringify E d).
      left. reflexivity.
    + exists e. left. reflexivity.
  - destruct b as [data|e].
    + destruct (content_of E data) as [e|raw].
      * intros H. injection H as <- <-. split; [reflexivity|]. exists e. left. reflexivity.
      * destruct (extract raw) as [h c j| |].
        -- destruct (materialize E up h c j st). discriminate.
        -- intros H. injection H as <- <-. split; [reflexivity|].
           exists ("JSON block not found in model's output. Raw content: "
                   ++ substring0 200 raw ++ "...").
           right. reflexivity.
        -- intros H. injection H as <- <-. split; [reflexivity|].
           exists ("Could not parse JSON from model. Raw content: "
                   ++ substring0 200 raw ++ "...").
           right. reflexivity.
    + intros H. injection H as <- <-. split; [reflexivity|]. exists e. left. reflexivity.
Qed.



(** ** Replies without usable content *)

(** X11: a provider reply with a success status whose JSON object has no
    [choices], or an empty [choices] array, ends in the generation error
    carrying the TypeError of reading [0] of [undefined], or [message] of
    [undefined]; a first choice whose [message.content] is [null] or absent
    ends in the one of reading [match] of that value, and one whose content
    is any other value that is not a string (a number, an object, ...) ends
    in the TypeError ["rawContent.match is not a function"].  Nothing is
    written. *)
Theorem generate_unusable_reply (E : node_env) (up : string) (status : nat)
  (fields : list (string * jsval)) (st : fs) :
  response_ok status = true ->
  (obj_get fields "choices" = None ->
   generateWebsiteWithDeepSeek E up (FetchResponse status (BodyJson (JObj fields))) st
   = (generation_error (cannot_read E JUndef "0"), st))
  /\ (obj_get fields "choices" = Some (JArr []) ->
      generateWebsiteWithDeepSeek E up (FetchResponse status (BodyJson (JObj fields))) st
      = (generation_error (cannot_read E JUndef "message"), st))
  /\ (forall rest mfields cfields v,
      obj_get fields "choices" = Some (JArr (JObj mfields :: rest)) ->
      obj_get mfields "message" = Some (JObj cfields) ->
      match obj_get cfields "content" with Some x => x | None => JUndef end = v ->
      (v = JNull \/ v = JUndef) ->
      generateWebsiteWithDeepSeek E up (FetchResponse status (BodyJson (JObj fields))) st
      = (generation_error (cannot_read E v "match"), st))
  /\ (forall rest mfields cfields v,
      obj_get fields "choices" = Some (JArr (JObj mfields :: rest)) ->
      obj_get mfields "message" = Some (JObj cfields) ->
      obj_get cfields "content" = Some v ->
      v <> JNull -> v <> JUndef -> (forall s, v <> JStr s) ->
      generateWebsiteWithDeepSeek E up (FetchResponse status (BodyJson (JObj fields))) st
      = (generation_error (not_a_function E "rawContent.match"), st)).
Proof.
  intros Hok. unfold generateWebsiteWithDeepSeek. rewrite Hok. cbn [negb].
  split; [|split; [|split]].
  - intros Hc. unfold content_of, get. rewrite Hc. reflexivity.
  - intros Hc. unfold content_of, get. rewrite Hc. reflexivity.
  - intros rest mfields cfields v Hc Hm Hv Hs. unfold content_of, get.
    rewrite Hc. cbn -[obj_get]. rewrite Hm.
    destruct (obj_get cfields "content") as [x|]; subst v;
      [destruct Hs as [-> | ->]|]; reflexivity.
  - intros rest mfields cfields v Hc Hm Hv Hn Hu Hs. unfold content_of, get.
    rewrite Hc. cbn -[obj_get]. rewrite Hm, Hv.
    destruct v; try reflexivity; try contradiction. exfalso. eapply Hs. reflexivity.
Qed.

Lemma generate_unusable_reply_witness :
  generateWebsiteWithDeepSeek node0 scenarioA_up
    (FetchResponse 200 (BodyJson (JObj [("id", JStr "gen-1"); ("choices", JArr [])]))) fs_base
  = (generation_error "Cannot read properties of undefined (reading 'message')", fs_base).
Proof.
  exact (proj1 (proj2 (generate_unusable_reply node0 scenarioA_up 200
                         [("id", JStr "gen-1"); ("choices", JArr [])] fs_base eq_refl))
                 eq_refl).
Defined.
